(** * pure-app: the client-side OAuth 2.0 + PKCE login flow and its pages

    A shallow embedding of the scripts of the Svelte pages

    - the home page, [unnamed/part_002] (startup check, login, logout),
    - the callback page, [src/routes/auth/callback/+page.svelte]
      (validation, exchange, commit, logout),
    - the repositories page, [unnamed/part_001] (loading, choosing and
      selecting a project, file icons, logout),
    - the dashboard page, [src/routes/dashboard/+page.svelte] (loading,
      navigation, logout),
    - the new-post page, [src/routes/new-post/+page.svelte] (loading, the
      list of images, the commit).

    [sessionStorage] is a finite map from keys to strings.  Every handler is
    a computation in a small state-and-exception monad over the browser tab:
    the storage, the page's variables, and a chronological log of the
    observable actions (storage writes, network requests, navigations).
    Everything the handlers obtain from outside the repository (the query
    string, the arctic client, [fetch], [JSON], [YAML], the clock, the file
    reader) is a field of an environment record, so the theorems quantify
    over every behaviour of the provider and of the browser.  The
    diagnostic variables of the callback page ([debugInfo], [errorDetails])
    and the console output are not part of the model. *)

From stdpp Require Import gmap strings list fin_maps.

Open Scope string_scope.
Open Scope list_scope.

(** ** JavaScript values the handlers look at *)

(** A thrown value: an [Error] instance with its message, or anything else
    (whose [message] property may be missing). *)
Inductive JsExn : Type :=
| JsError (message : string)
| JsNonError (message : option string).

(** The result of evaluating an expression that may throw. *)
Inductive Res (E A : Type) : Type :=
| Ret (a : A)
| Throw (e : E).
Arguments Ret {E A} a.
Arguments Throw {E A} e.

(** [!!v] for [v : string | null]: [null] and the empty string are falsy. *)
Definition truthy (v : option string) : bool :=
  match v with
  | Some s => bool_decide (s ≠ "")
  | None => false
  end.

(** [a === b] for [a : string] and [b : string | null]. *)
Definition strict_eq (a : string) (b : option string) : bool :=
  bool_decide (b = Some a).

(** Observable actions, in the order they happen. *)
Inductive Event : Type :=
| EvSetItem (key value : string)
| EvRemoveItem (key : string)
| EvCreateAuthorizationURL (state : string) (method : nat)
                           (codeVerifier : string) (scopes : list string)
| EvLocationHref (url : string)
| EvValidateAuthorizationCode (code codeVerifier : string)
| EvFetch (url bearer : string)
| EvGoto (path : string)
| EvSetTimeoutGoto (path : string) (ms : nat).

(** ** The browser tab and the handler monad *)

(** [P] is the record of the page's reactive variables. *)
Record Tab (P : Type) : Type := mkTab {
  sessionStorage : gmap string string;
  page : P;
  log : list Event
}.
Arguments mkTab {P} _ _ _.
Arguments sessionStorage {P} _.
Arguments page {P} _.
Arguments log {P} _.

Definition M (P E A : Type) : Type := Tab P → Res E A * Tab P.

Definition ret {P E A} (a : A) : M P E A := λ t, (Ret a, t).

Definition throw {P E A} (e : E) : M P E A := λ t, (Throw e, t).

Definition bind {P E A B} (m : M P E A) (k : A → M P E B) : M P E B :=
  λ t, match m t with
       | (Ret a, t') => k a t'
       | (Throw e, t') => (Throw e, t')
       end.

(** [try { m } catch (e) { h e }] *)
Definition try_catch {P E E' A} (m : M P E A) (h : E → M P E' A) : M P E' A :=
  λ t, match m t with
       | (Ret a, t') => (Ret a, t')
       | (Throw e, t') => h e t'
       end.

#[global] Instance M_ret {P E} : MRet (M P E) := λ A, ret.
#[global] Instance M_bind {P E} : MBind (M P E) := λ A B k m, bind m k.

Definition emit {P E} (ev : Event) : M P E unit :=
  λ t, (Ret tt, mkTab (sessionStorage t) (page t) (log t ++ [ev])).

(** An expression evaluated outside the repository: its value or the
    exception it raises is decided by the environment. *)
Definition eval {P E A} (r : Res E A) : M P E A := λ t, (r, t).

Definition getItem {P E} (key : string) : M P E (option string) :=
  λ t, (Ret (sessionStorage t !! key), t).

Definition setItem {P E} (key value : string) : M P E unit :=
  λ t, (Ret tt, mkTab (<[key := value]> (sessionStorage t)) (page t)
                      (log t ++ [EvSetItem key value])).

(** [removeItem] of a key that is not there does nothing. *)
Definition removeItem {P E} (key : string) : M P E unit :=
  λ t, (Ret tt, mkTab (delete key (sessionStorage t)) (page t)
                      (log t ++ [EvRemoveItem key])).

Definition modify_page {P E} (f : P → P) : M P E unit :=
  λ t, (Ret tt, mkTab (sessionStorage t) (f (page t)) (log t)).

(** A tab that has just loaded a page: the given storage, the page's
    initial variables, nothing done yet. *)
Definition fresh {P} (s : gmap string string) (p : P) : Tab P := mkTab s p [].

(** ** What the provider and the arctic client return *)

(** [OAuth2Tokens]: the two accessor calls the callback makes. *)
Record Tokens : Type := mkTokens {
  accessToken : Res JsExn string;
  refreshToken : Res JsExn (option string)
}.

(** The body of the "current user" response as the pages use it: only
    [userInfo.username] is read by the callback.  Reading a property of
    [null] raises a [TypeError] whose text is the engine's. *)
Inductive UserJson : Type :=
| JNullish (typeErrorMessage : string)
| JUser (username : string).

Record Response : Type := mkResponse {
  ok : bool;
  json : Res JsExn UserJson
}.

(** [tokenError?.message]: the message of a thrown value, if it has one. *)
Definition exn_message (e : JsExn) : option string :=
  match e with
  | JsError m => Some m
  | JsNonError m => m
  end.

(** [a || b] on strings: [a] when truthy, [b] otherwise. *)
Definition or_else (a : option string) (b : string) : string :=
  match a with
  | Some s => if truthy a then s else b
  | None => b
  end.

(** The storage keys the pages use. *)
Definition k_oauth_state : string := "oauth_state".
Definition k_code_verifier : string := "code_verifier".
Definition k_access_token : string := "gitlab_access_token".
Definition k_refresh_token : string := "gitlab_refresh_token".
Definition k_selected_repo : string := "selected_repo".

(** ** The callback page: [src/routes/auth/callback/+page.svelte] *)

Module Callback.

Record Vars : Type := mkVars {
  status : string;
  error : string
}.

Definition initial : Vars := mkVars "Processing..." "".

Record Env : Type := mkEnv {
  GITLAB_URL : string;
  base : string;
  (** [params.get('code')], [params.get('state')] *)
  code : option string;
  state : option string;
  (** [client.validateAuthorizationCode(tokenEndpoint, code, codeVerifier)] *)
  validateAuthorizationCode : string → string → Res JsExn Tokens;
  (** [fetch(url, {headers: {Authorization: `Bearer ${token}`}})] *)
  fetch : string → string → Res JsExn Response
}.

(** What leaves the [try] block of [onMount]: one constructor per [throw]
    statement of the handler, and [Foreign] for an exception raised by a
    call the handler does not guard. *)
Inductive Thrown : Type :=
| MissingParameter
| StateMismatch
| MissingVerifier
| TokenExchangeError (tokenError : JsExn)
| IdentityFetchError
| Foreign (e : JsExn).

(** The [Error] object each [throw] statement builds. *)
Definition thrown_value (e : Thrown) : JsExn :=
  match e with
  | MissingParameter => JsError "Missing code or state parameter"
  | StateMismatch => JsError "Invalid state parameter - possible CSRF attack"
  | MissingVerifier => JsError "Missing code verifier"
  | TokenExchangeError tokenError =>
      JsError ("Token exchange failed: "
               +:+ or_else (exn_message tokenError) "Unknown error")
  | IdentityFetchError => JsError "Failed to fetch user info"
  | Foreign e => e
  end.

(** Failures the handler signals itself, through one of its own [throw]
    statements. *)
Definition raised_by_handler (e : Thrown) : bool :=
  match e with
  | Foreign _ => false
  | _ => true
  end.

Definition set_status {E} (s : string) : M Vars E unit :=
  modify_page (λ v, mkVars s (error v)).

Definition set_error {E} (s : string) : M Vars E unit :=
  modify_page (λ v, mkVars (status v) s).

(** A call the handler leaves unguarded: what it raises reaches the outer
    [catch] as it is. *)
Definition unguarded {A} (r : Res JsExn A) : M Vars Thrown A :=
  try_catch (eval r) (λ e, throw (Foreign e)).

(** Lines 146-159: the token-info request, whose result is only printed
    and whose failure is swallowed by its own [try]/[catch]. *)
Definition token_info (env : Env) (token : string) : M Vars Thrown unit :=
  try_catch
    (emit (EvFetch (GITLAB_URL env +:+ "/oauth/token/info") token);;
     tokenInfoResponse ← eval (fetch env (GITLAB_URL env +:+ "/oauth/token/info") token);
     if ok tokenInfoResponse
     then _ ← eval (json tokenInfoResponse); mret tt
     else mret tt)
    (λ _ : JsExn, mret tt).

(** Lines 35-170: the body of the [try] block.  The [debugInfo] pushes and
    the [console.log] calls (with the JWT decoding guarded by its own
    [try]/[catch], lines 128-143) touch neither the storage nor the
    control flow and are left out.  [tokens.accessToken()] is evaluated
    first inside the header of the identity request (line 109); the later
    calls return the same string. *)
Definition onMount_try (env : Env) : M Vars Thrown unit :=
  if negb (truthy (code env)) || negb (truthy (state env))
  then throw MissingParameter
  else
    let code := default "" (code env) in
    let state := default "" (state env) in
    storedState ← getItem k_oauth_state;
    if negb (truthy storedState) || negb (strict_eq state storedState)
    then throw StateMismatch
    else
      codeVerifier ← getItem k_code_verifier;
      if negb (truthy codeVerifier)
      then throw MissingVerifier
      else
        let codeVerifier := default "" codeVerifier in
        set_status "Exchanging code for access token...";;
        tokens ← try_catch
          (emit (EvValidateAuthorizationCode code codeVerifier);;
           eval (validateAuthorizationCode env code codeVerifier))
          (λ tokenError, throw (TokenExchangeError tokenError));
        set_status "Fetching user info...";;
        token ← unguarded (accessToken tokens);
        emit (EvFetch (GITLAB_URL env +:+ "/api/v4/user") token);;
        userResponse ← unguarded (fetch env (GITLAB_URL env +:+ "/api/v4/user") token);
        if negb (ok userResponse)
        then throw IdentityFetchError
        else
          userInfo ← unguarded (json userResponse);
          setItem k_access_token token;;
          refreshToken ← unguarded (refreshToken tokens);
          (if truthy refreshToken
           then setItem k_refresh_token (default "" refreshToken)
           else mret tt);;
          token_info env token;;
          removeItem k_oauth_state;;
          removeItem k_code_verifier;;
          match userInfo with
          | JNullish msg => throw (Foreign (JsError msg))
          | JUser username =>
              set_status ("Success! Logged in as " +:+ username
                          +:+ ". Redirecting...");;
              emit (EvSetTimeoutGoto (base env +:+ "/repos") 2000)
          end.

(** Lines 171-186: the [catch] block. *)
Definition onMount_catch (err : Thrown) : M Vars JsExn unit :=
  set_error (match thrown_value err with
             | JsError message => message
             | JsNonError _ => "An unknown error occurred"
             end);;
  set_status "Error during authentication".

Definition onMount (env : Env) : M Vars JsExn unit :=
  try_catch (onMount_try env) onMount_catch.

(** Lines 21-31. *)
Definition logout {P} (base : string) : M P JsExn unit :=
  removeItem k_access_token;;
  removeItem k_refresh_token;;
  removeItem k_oauth_state;;
  removeItem k_code_verifier;;
  removeItem k_selected_repo;;
  emit (EvGoto (base +:+ "/")).

(** How a run of the handler ends, in the words of the state machine:
    the [try] block ran to its end, or it was left by an exception. *)
Inductive Outcome : Type :=
| Committed
| Failed (reason : Thrown).

(** The handler runs once, when the page has loaded on storage [s]. *)
Definition outcome (env : Env) (s : gmap string string) : Outcome :=
  match (onMount_try env (fresh s initial)).1 with
  | Ret _ => Committed
  | Throw e => Failed e
  end.

(** The tab when the handler has finished. *)
Definition final (env : Env) (s : gmap string string) : Tab Vars :=
  (onMount env (fresh s initial)).2.

End Callback.

(** ** The home page: [unnamed/part_002] *)

Module Home.

Record Vars : Type := mkVars {
  isLoggedIn : bool;
  userInfo : option UserJson;
  loading : bool
}.

Definition initial : Vars := mkVars false None true.

Record Env : Type := mkEnv {
  GITLAB_URL : string;
  (** arctic's [generateState()] and [generateCodeVerifier()] *)
  generateState : Res JsExn string;
  generateCodeVerifier : Res JsExn string;
  (** [client.createAuthorizationURLWithPKCE(authorizationEndpoint, state,
      method, codeVerifier, scopes).toString()] *)
  createAuthorizationURLWithPKCE :
    string → nat → string → list string → Res JsExn string;
  fetch : string → string → Res JsExn Response
}.

(** Lines 18-45. *)
Definition onMount (env : Env) : M Vars JsExn unit :=
  accessToken ← getItem k_access_token;
  (if truthy accessToken
   then
     let accessToken := default "" accessToken in
     try_catch
       (emit (EvFetch (GITLAB_URL env +:+ "/api/v4/user") accessToken);;
        response ← eval (fetch env (GITLAB_URL env +:+ "/api/v4/user") accessToken);
        if ok response
        then
          info ← eval (json response);
          modify_page (λ v, mkVars (isLoggedIn v) (Some info) (loading v));;
          modify_page (λ v, mkVars true (userInfo v) (loading v))
        else
          removeItem k_access_token;;
          removeItem k_refresh_token)
       (λ _ : JsExn, mret tt)
   else mret tt);;
  modify_page (λ v, mkVars (isLoggedIn v) (userInfo v) false).

(** Lines 47-69. *)
Definition loginWithGitLab (env : Env) : M Vars JsExn unit :=
  state ← eval (generateState env);
  codeVerifier ← eval (generateCodeVerifier env);
  setItem k_oauth_state state;;
  setItem k_code_verifier codeVerifier;;
  emit (EvCreateAuthorizationURL state 0 codeVerifier ["api"]);;
  url ← eval (createAuthorizationURLWithPKCE env state 0 codeVerifier ["api"]);
  emit (EvLocationHref url).

(** Lines 71-80. *)
Definition logout : M Vars JsExn unit :=
  removeItem k_access_token;;
  removeItem k_refresh_token;;
  removeItem k_oauth_state;;
  removeItem k_code_verifier;;
  modify_page (λ v, mkVars false (userInfo v) (loading v));;
  modify_page (λ v, mkVars (isLoggedIn v) None (loading v)).

End Home.

(** ** Values of the repository pages *)

(** A response whose body, read with [json()], is an [A]. *)
Record Reply (A : Type) : Type := mkReply {
  reply_ok : bool;
  reply_status : string;
  reply_json : Res JsExn A
}.
Arguments mkReply {A} _ _ _.
Arguments reply_ok {A} _.
Arguments reply_status {A} _.
Arguments reply_json {A} _.

(** A project as the provider lists it, or as [JSON.parse] gives it back
    from the store: what the scripts read of the value [v]. *)
Record RepoJson : Type := mkRepoJson {
  (** [!!v] *)
  repo_truthy : bool;
  (** [v.id.toString()], which raises when there is no [id] *)
  repo_id_toString : Res JsExn string;
  (** the text of [v.id] inside a template literal *)
  repo_id : string;
  (** [v.default_branch], [None] when it is falsy *)
  repo_default_branch : option string;
  (** [JSON.stringify(v)] *)
  repo_stringify : string
}.

(** [!!v] for a variable that holds such a value, [null] or [undefined]. *)
Definition repo_present (v : option RepoJson) : bool :=
  match v with
  | Some r => repo_truthy r
  | None => false
  end.

(** An entry of the file tree: [item.type] and [item.name]. *)
Record TreeItem : Type := mkTreeItem {
  item_type : string;
  item_name : string
}.

(** [s.split(c)] for a one-character separator.  Strings are sequences of
    bytes here (UTF-8), and of UTF-16 units in the browser; the separators
    the pages use are ASCII, which no encoding of another character
    contains, so the pieces are the same. *)
Fixpoint split (sep : Ascii.ascii) (s : string) : list string :=
  match s with
  | EmptyString => [""]
  | String c s' =>
      if decide (c = sep) then "" :: split sep s'
      else match split sep s' with
           | segment :: rest => String c segment :: rest
           | [] => [String c ""]
           end
  end.

Definition dot : Ascii.ascii := Ascii.ascii_of_N 46.

(** [c.toLowerCase()] on the letters A-Z. *)
Definition lower (c : Ascii.ascii) : Ascii.ascii :=
  let n := Ascii.N_of_ascii c in
  if decide (65 ≤ n ∧ n ≤ 90)%N then Ascii.ascii_of_N (n + 32) else c.

(** [s.toLowerCase()].  Outside ASCII the browser lowers more characters,
    but only one of them to an ASCII letter (the Kelvin sign, to [k]), and
    no extension [getFileIcon] knows contains a [k]. *)
Fixpoint toLowerCase (s : string) : string :=
  match s with
  | EmptyString => EmptyString
  | String c s' => String (lower c) (toLowerCase s')
  end.

(** ** The repositories page: [unnamed/part_001] *)

Module Repos.

(** Lines 117-127. *)
Definition logout {P} (base : string) : M P JsExn unit :=
  removeItem k_access_token;;
  removeItem k_refresh_token;;
  removeItem k_oauth_state;;
  removeItem k_code_verifier;;
  removeItem k_selected_repo;;
  emit (EvGoto (base +:+ "/")).

Record Vars : Type := mkVars {
  accessToken : option string;
  loading : bool;
  repositories : list RepoJson;
  selectedRepoId : string;
  selectedRepo : option RepoJson;
  fileTree : list TreeItem;
  loadingFiles : bool
}.

Definition initial : Vars := mkVars None true [] "" None [] false.

Record Env : Type := mkEnv {
  GITLAB_URL : string;
  base : string;
  (** [fetch] of the project list and of a file tree *)
  fetch_projects : string → string → Res JsExn (Reply (list RepoJson));
  fetch_tree : string → string → Res JsExn (Reply (list TreeItem))
}.

Definition set_accessToken (a : option string) (v : Vars) : Vars :=
  mkVars a (loading v) (repositories v) (selectedRepoId v) (selectedRepo v)
         (fileTree v) (loadingFiles v).

Definition set_loading (b : bool) (v : Vars) : Vars :=
  mkVars (accessToken v) b (repositories v) (selectedRepoId v) (selectedRepo v)
         (fileTree v) (loadingFiles v).

Definition set_repositories (l : list RepoJson) (v : Vars) : Vars :=
  mkVars (accessToken v) (loading v) l (selectedRepoId v) (selectedRepo v)
         (fileTree v) (loadingFiles v).

Definition set_selectedRepo (r : option RepoJson) (v : Vars) : Vars :=
  mkVars (accessToken v) (loading v) (repositories v) (selectedRepoId v) r
         (fileTree v) (loadingFiles v).

Definition set_fileTree (l : list TreeItem) (v : Vars) : Vars :=
  mkVars (accessToken v) (loading v) (repositories v) (selectedRepoId v)
         (selectedRepo v) l (loadingFiles v).

Definition set_loadingFiles (b : bool) (v : Vars) : Vars :=
  mkVars (accessToken v) (loading v) (repositories v) (selectedRepoId v)
         (selectedRepo v) (fileTree v) b.

Definition projects_url (env : Env) : string :=
  GITLAB_URL env
  +:+ "/api/v4/projects?membership=true&per_page=100&order_by=last_activity_at".

(** Lines 16-44.  The [Error] thrown for a failure status is caught by the
    same [catch] as an exception of [fetch] or [json()]. *)
Definition onMount (env : Env) : M Vars JsExn unit :=
  token ← getItem k_access_token;
  modify_page (set_accessToken token);;
  if negb (truthy token)
  then emit (EvGoto (base env +:+ "/"))
  else
    let token := default "" token in
    try_catch
      (emit (EvFetch (projects_url env) token);;
       response ← eval (fetch_projects env (projects_url env) token);
       if negb (reply_ok response)
       then throw (JsError "Failed to fetch repositories")
       else
         body ← eval (reply_json response);
         modify_page (set_repositories body);;
         modify_page (set_loading false))
      (λ _ : JsExn, modify_page (set_loading false)).

(** [repositories.find(r => r.id.toString() === selectedRepoId.toString())]:
    the first project whose id reads as [id]; a project without id that
    comes before it makes the search raise. *)
Fixpoint find_repo (id : string) (l : list RepoJson) : Res JsExn (option RepoJson) :=
  match l with
  | [] => Ret None
  | r :: l' =>
      match repo_id_toString r with
      | Throw e => Throw e
      | Ret i => if decide (i = id) then Ret (Some r) else find_repo id l'
      end
  end.

Definition tree_url (env : Env) (id : string) : string :=
  GITLAB_URL env +:+ "/api/v4/projects/" +:+ id
  +:+ "/repository/tree?recursive=false&per_page=100".

(** Lines 46-74.  The [finally] block runs on both ways out of the [try]. *)
Definition handleRepoSelect (env : Env) : M Vars JsExn unit :=
  v ← (λ t, (Ret (page t), t));
  if negb (truthy (Some (selectedRepoId v))) || negb (truthy (accessToken v))
  then mret tt
  else
    let token := default "" (accessToken v) in
    found ← eval (find_repo (selectedRepoId v) (repositories v));
    modify_page (set_selectedRepo found);;
    modify_page (set_loadingFiles true);;
    modify_page (set_fileTree []);;
    try_catch
      (emit (EvFetch (tree_url env (selectedRepoId v)) token);;
       response ← eval (fetch_tree env (tree_url env (selectedRepoId v)) token);
       if negb (reply_ok response)
       then throw (JsError "Failed to fetch file tree")
       else
         body ← eval (reply_json response);
         modify_page (set_fileTree body))
      (λ _ : JsExn, mret tt);;
    modify_page (set_loadingFiles false).

(** Lines 76-105. *)
Definition getFileIcon (type name : string) : string :=
  if decide (type = "tree") then "📁"
  else
    let ext := toLowerCase <$> last (split dot name) in
    if decide (ext = Some "js") then "📜"
    else if decide (ext = Some "ts") then "📜"
    else if decide (ext = Some "jsx") then "📜"
    else if decide (ext = Some "tsx") then "📜"
    else if decide (ext = Some "json") then "📋"
    else if decide (ext = Some "md") then "📝"
    else if decide (ext = Some "css") then "🎨"
    else if decide (ext = Some "scss") then "🎨"
    else if decide (ext = Some "html") then "🌐"
    else if decide (ext = Some "png") then "🖼️"
    else if decide (ext = Some "jpg") then "🖼️"
    else if decide (ext = Some "jpeg") then "🖼️"
    else if decide (ext = Some "gif") then "🖼️"
    else if decide (ext = Some "svg") then "🖼️"
    else "📄".

(** Lines 107-115. *)
Definition selectRepo (env : Env) : M Vars JsExn unit :=
  v ← (λ t, (Ret (page t), t));
  if negb (repo_present (selectedRepo v))
  then mret tt
  else
    match selectedRepo v with
    | None => mret tt
    | Some r =>
        setItem k_selected_repo (repo_stringify r);;
        emit (EvGoto (base env +:+ "/dashboard"))
    end.

End Repos.

(** ** The dashboard page: [src/routes/dashboard/+page.svelte] *)

Module Dashboard.

(** Lines 31-41. *)
Definition logout {P} (base : string) : M P JsExn unit :=
  removeItem k_access_token;;
  removeItem k_refresh_token;;
  removeItem k_oauth_state;;
  removeItem k_code_verifier;;
  removeItem k_selected_repo;;
  emit (EvGoto (base +:+ "/")).

Record Vars : Type := mkVars {
  selectedRepo : option RepoJson;
  loading : bool
}.

Definition initial : Vars := mkVars None true.

Record Env : Type := mkEnv {
  base : string;
  (** [JSON.parse]: the value, [None] for [null] *)
  JSON_parse : string → Res JsExn (option RepoJson)
}.

(** Lines 9-21.  The handler has no [try]: what [JSON.parse] raises leaves
    it. *)
Definition onMount (env : Env) : M Vars JsExn unit :=
  repoData ← getItem k_selected_repo;
  if negb (truthy repoData)
  then emit (EvGoto (base env +:+ "/repos"))
  else
    parsed ← eval (JSON_parse env (default "" repoData));
    modify_page (λ v, mkVars parsed (loading v));;
    modify_page (λ v, mkVars (selectedRepo v) false).

(** Lines 23-25. *)
Definition goToNewPost (env : Env) : M Vars JsExn unit :=
  emit (EvGoto (base env +:+ "/new-post")).

(** Lines 27-29. *)
Definition backToRepos (env : Env) : M Vars JsExn unit :=
  emit (EvGoto (base env +:+ "/repos")).

End Dashboard.

(** ** The new-post page: [src/routes/new-post/+page.svelte] *)

Module NewPost.

(** A [File] of the file input.  [dataURL] is what a [FileReader] makes of
    it with [readAsDataURL]: the result, or the error event. *)
Record File : Type := mkFile {
  name : string;
  type : string;
  dataURL : Res JsExn string
}.

Record ImageUpload : Type := mkImage {
  id : string;
  file : File;
  preview : string;
  caption : string
}.

(** A file the user picked, with what [URL.createObjectURL] and
    [crypto.randomUUID] answer when they are asked about it. *)
Record Picked : Type := mkPicked {
  picked : File;
  objectURL : string;
  uuid : string
}.

(** An image entry of a post: the [caption] key is there only when the
    caption is not empty. *)
Record ImageObj : Type := mkImageObj {
  path : string;
  image_caption : option string
}.

(** An element of the [posts] array of [pure.yml]: one that was in the
    file, which the page does not look into, or one the page has added. *)
Inductive Post : Type :=
| Existing (entry : string)
| Added (timestamp title : string) (images : list ImageObj).

(** The [posts] key of the parsed file: falsy (missing, [null]), an array,
    or some other truthy value, which has no [unshift]. *)
Inductive Posts : Type :=
| PostsFalsy
| PostsArray (items : list Post)
| PostsOther.

(** The parsed [pure.yml]: [posts], and the other top-level keys with
    their values, which the page only passes on. *)
Record Yml : Type := mkYml {
  posts : Posts;
  others : list (string * string)
}.

Record Action : Type := mkAction {
  action : string;
  file_path : string;
  (** [undefined] when the data URL had no comma *)
  content : option string;
  encoding : string
}.

(** [commitRequest]: the URL, the [Authorization] header and the body. *)
Record CommitRequest : Type := mkCommit {
  url : string;
  authorization : string;
  branch : string;
  commit_message : string;
  actions : list Action
}.

(** The body of the answer to the commit request, as far as the page reads
    it: [result.id] of a success, the three optional texts of an error
    (each [None] when falsy), and [JSON.stringify(body, null, 2)]. *)
Inductive CommitBody : Type :=
| BodyNullish
| BodyValue (truthy : bool) (id : string)
            (message error error_description : option string)
            (pretty : string).

(** The last two fields are not variables of the page: they record the
    calls of [URL.revokeObjectURL] and the commit requests handed to
    [fetch], oldest first. *)
Record Vars : Type := mkVars {
  selectedRepo : option RepoJson;
  images : list ImageUpload;
  postDatetime : string;
  postTitle : string;
  accessToken : option string;
  pureYmlContent : option Yml;
  isSubmitting : bool;
  statusMessage : string;
  errorMessage : string;
  revoked : list string;
  commits : list CommitRequest
}.

Definition initial : Vars := mkVars None [] "" "" None None false "" "" [] [].

Record Env : Type := mkEnv {
  GITLAB_URL : string;
  base : string;
  (** [JSON.parse]: the value, [None] for [null] *)
  JSON_parse : string → Res JsExn (option RepoJson);
  (** [new Date().toISOString()] *)
  now : string;
  (** [new Date(s).toISOString()], which raises for an invalid date *)
  toISOString : string → Res JsExn string;
  (** [fetch] of [pure.yml]; the body is taken as already decoded:
      [YAML.parse(atob((await response.json()).content))] *)
  fetch_pure_yml : string → string → Res JsExn (Reply (option Yml));
  YAML_stringify : Yml → Res JsExn string;
  btoa : string → Res JsExn string;
  (** [fetch] of the commit *)
  post_commit : CommitRequest → Res JsExn (Reply CommitBody);
  (** the text of the [TypeError] the engine raises for an expression *)
  engine_message : string → string
}.

Definition set_selectedRepo (x : option RepoJson) (v : Vars) : Vars :=
  mkVars x (images v) (postDatetime v) (postTitle v) (accessToken v)
         (pureYmlContent v) (isSubmitting v) (statusMessage v)
         (errorMessage v) (revoked v) (commits v).

Definition set_images (x : list ImageUpload) (v : Vars) : Vars :=
  mkVars (selectedRepo v) x (postDatetime v) (postTitle v) (accessToken v)
         (pureYmlContent v) (isSubmitting v) (statusMessage v)
         (errorMessage v) (revoked v) (commits v).

Definition set_postDatetime (x : string) (v : Vars) : Vars :=
  mkVars (selectedRepo v) (images v) x (postTitle v) (accessToken v)
         (pureYmlContent v) (isSubmitting v) (statusMessage v)
         (errorMessage v) (revoked v) (commits v).

Definition set_postTitle (x : string) (v : Vars) : Vars :=
  mkVars (selectedRepo v) (images v) (postDatetime v) x (accessToken v)
         (pureYmlContent v) (isSubmitting v) (statusMessage v)
         (errorMessage v) (revoked v) (commits v).

Definition set_accessToken (x : option string) (v : Vars) : Vars :=
  mkVars (selectedRepo v) (images v) (postDatetime v) (postTitle v) x
         (pureYmlContent v) (isSubmitting v) (statusMessage v)
         (errorMessage v) (revoked v) (commits v).

Definition set_pureYmlContent (x : option Yml) (v : Vars) : Vars :=
  mkVars (selectedRepo v) (images v) (postDatetime v) (postTitle v)
         (accessToken v) x (isSubmitting v) (statusMessage v)
         (errorMessage v) (revoked v) (commits v).

Definition set_isSubmitting (x : bool) (v : Vars) : Vars :=
  mkVars (selectedRepo v) (images v) (postDatetime v) (postTitle v)
         (accessToken v) (pureYmlContent v) x (statusMessage v)
         (errorMessage v) (revoked v) (commits v).

Definition set_statusMessage (x : string) (v : Vars) : Vars :=
  mkVars (selectedRepo v) (images v) (postDatetime v) (postTitle v)
         (accessToken v) (pureYmlContent v) (isSubmitting v) x
         (errorMessage v) (revoked v) (commits v).

Definition set_errorMessage (x : string) (v : Vars) : Vars :=
  mkVars (selectedRepo v) (images v) (postDatetime v) (postTitle v)
         (accessToken v) (pureYmlContent v) (isSubmitting v)
         (statusMessage v) x (revoked v) (commits v).

Definition set_revoked (x : list string) (v : Vars) : Vars :=
  mkVars (selectedRepo v) (images v) (postDatetime v) (postTitle v)
         (accessToken v) (pureYmlContent v) (isSubmitting v)
         (statusMessage v) (errorMessage v) x (commits v).

Definition set_commits (x : list CommitRequest) (v : Vars) : Vars :=
  mkVars (selectedRepo v) (images v) (postDatetime v) (postTitle v)
         (accessToken v) (pureYmlContent v) (isSubmitting v)
         (statusMessage v) (errorMessage v) (revoked v) x.

Definition get_page {E} : M Vars E Vars := λ t, (Ret (page t), t).

Definition T_char : Ascii.ascii := Ascii.ascii_of_N 84.
Definition comma : Ascii.ascii := Ascii.ascii_of_N 44.

(** [selectedRepo.default_branch || 'main'] *)
Definition branch_of (r : RepoJson) : string :=
  default "main" (repo_default_branch r).

Definition pure_yml_url (env : Env) (r : RepoJson) : string :=
  GITLAB_URL env +:+ "/api/v4/projects/" +:+ repo_id r
  +:+ "/repository/files/pure.yml?ref=" +:+ branch_of r.

(** Lines 56-82. *)
Definition fetchPureYml (env : Env) : M Vars JsExn unit :=
  v ← get_page;
  if negb (truthy (accessToken v)) || negb (repo_present (selectedRepo v))
  then mret tt
  else
    match selectedRepo v with
    | None => mret tt
    | Some r =>
        let token := default "" (accessToken v) in
        try_catch
          (emit (EvFetch (pure_yml_url env r) token);;
           response ← eval (fetch_pure_yml env (pure_yml_url env r) token);
           if negb (reply_ok response)
           then mret tt
           else
             parsed ← eval (reply_json response);
             modify_page (set_pureYmlContent parsed))
          (λ _ : JsExn, mret tt)
    end.

(** Lines 27-54.  The handler has no [try]: what [JSON.parse] raises
    leaves it. *)
Definition onMount (env : Env) : M Vars JsExn unit :=
  repoData ← getItem k_selected_repo;
  if negb (truthy repoData)
  then emit (EvGoto (base env +:+ "/repos"))
  else
    parsed ← eval (JSON_parse env (default "" repoData));
    modify_page (set_selectedRepo parsed);;
    token ← getItem k_access_token;
    modify_page (set_accessToken token);;
    if negb (truthy token)
    then emit (EvGoto (base env +:+ "/"))
    else
      modify_page (set_postDatetime (String.substring 0 16 (now env)));;
      fetchPureYml env.

(** The images the loop of [handleFileSelect] adds: one for every picked
    file whose type starts with [image/], in the order of the input. *)
Definition accepted (files : list Picked) : list ImageUpload :=
  omap (λ p, if String.prefix "image/" (type (picked p))
             then Some (mkImage (uuid p) (picked p) (objectURL p) "")
             else None) files.

(** Lines 84-115; [files] is [input.files]. *)
Definition handleFileSelect (files : option (list Picked)) : M Vars JsExn unit :=
  match files with
  | None => mret tt
  | Some files => modify_page (λ v, set_images (images v ++ accepted files) v)
  end.

(** Lines 117-125. *)
Definition removeImage (i : string) : M Vars JsExn unit :=
  v ← get_page;
  match List.find (λ img, bool_decide (id img = i)) (images v) with
  | Some image => modify_page (λ v, set_revoked (revoked v ++ [preview image]) v)
  | None => mret tt
  end;;
  modify_page (λ v, set_images (List.filter (λ img, bool_decide (id img ≠ i))
                                            (images v)) v).

(** Lines 299-311: the text after the first comma of the data URL. *)
Definition fileToBase64 (f : File) : Res JsExn (option string) :=
  match dataURL f with
  | Throw e => Throw e
  | Ret result => Ret (split comma result !! 1)
  end.

(** Lines 151-172: the loop over the images, which stops at the first file
    that cannot be read. *)
Fixpoint prepare (dateFolder : string) (imgs : list ImageUpload)
    : Res JsExn (list Action * list ImageObj) :=
  match imgs with
  | [] => Ret ([], [])
  | image :: rest =>
      let filePath := dateFolder +:+ "/" +:+ name (file image) in
      match fileToBase64 (file image) with
      | Throw e => Throw e
      | Ret base64Content =>
          match prepare dateFolder rest with
          | Throw e => Throw e
          | Ret (actions, imageObjects) =>
              Ret (mkAction "create" filePath base64Content "base64" :: actions,
                   mkImageObj filePath
                     (if truthy (Some (caption image))
                      then Some (caption image) else None)
                   :: imageObjects)
          end
      end
  end.

(** What reaches the [catch] block of [handleDone]: an exception, or the
    [Error] the handler builds for a failure status, with the body of the
    answer attached as [fullResponse]. *)
Inductive Caught : Type :=
| Raised (e : JsExn)
| ApiError (detailedError : string) (fullResponse : CommitBody).

Definition raised {A} (r : Res JsExn A) : M Vars Caught A :=
  try_catch (eval r) (λ e, throw (Raised e)).

Definition type_error {A} (env : Env) (expression : string) : M Vars Caught A :=
  throw (Raised (JsError (engine_message env expression))).

(** Lines 250-259. *)
Definition detailed_error (status : string)
    (message error error_description : option string) : string :=
  "API call failed (Status " +:+ status +:+ ")"
  +:+ match message with Some m => String.String (Ascii.ascii_of_N 10) m | None => "" end
  +:+ match error with
      | Some e => String.String (Ascii.ascii_of_N 10) ("Error: " +:+ e)
      | None => ""
      end
  +:+ match error_description with
      | Some d => String.String (Ascii.ascii_of_N 10) ("Description: " +:+ d)
      | None => ""
      end.

(** Lines 135-280: the body of the [try] block, without the console
    output, except that [action.content.length] (line 227) raises for an
    action whose content is [undefined]. *)
Definition handleDone_try (env : Env) (v : Vars) : M Vars Caught unit :=
  modify_page (set_statusMessage "Preparing files...");;
  isoTimestamp ← raised (toISOString env (postDatetime v));
  let dateFolder := default "" (head (split T_char isoTimestamp)) in
  prepared ← raised (prepare dateFolder (images v));
  let newPost := Added isoTimestamp (postTitle v) prepared.2 in
  let others := match pureYmlContent v with Some y => others y | None => [] end in
  items ← match pureYmlContent v with
           | Some (mkYml (PostsArray items) others) =>
               (** [unshift] on the array [pureYmlContent] shares with its copy *)
               modify_page (set_pureYmlContent
                              (Some (mkYml (PostsArray (newPost :: items)) others)));;
               mret (newPost :: items)
           | Some (mkYml PostsOther _) =>
               type_error env "updatedYml.posts.unshift is not a function"
           | _ => mret [newPost]
           end;
  updatedYmlString ← raised (YAML_stringify env (mkYml (PostsArray items) others));
  ymlBase64 ← raised (btoa env updatedYmlString);
  let actions := prepared.1 ++ [mkAction "update" "pure.yml" (Some ymlBase64) "base64"] in
  match selectedRepo v with
  | None => type_error env "selectedRepo.id"
  | Some r =>
      let request :=
        mkCommit (GITLAB_URL env +:+ "/api/v4/projects/" +:+ repo_id r
                  +:+ "/repository/commits")
                 ("Bearer " +:+ default "null" (accessToken v))
                 (branch_of r)
                 ("Add post for " +:+ dateFolder)
                 actions in
      if bool_decide (Exists (λ a, content a = None) actions)
      then type_error env "action.content.length"
      else
        modify_page (set_statusMessage "Creating commit on GitLab...");;
        emit (EvFetch (url request) (default "null" (accessToken v)));;
        modify_page (λ v, set_commits (commits v ++ [request]) v);;
        response ← raised (post_commit env request);
        body ← raised (reply_json response);
        if negb (reply_ok response)
        then
          match body with
          | BodyNullish => type_error env "errorData.message"
          | BodyValue _ _ message error error_description _ =>
              throw (ApiError (detailed_error (reply_status response)
                                 message error error_description) body)
          end
        else
          match body with
          | BodyNullish => type_error env "result.id"
          | BodyValue _ id _ _ _ _ =>
              modify_page (set_statusMessage
                             ("Post created successfully! Commit: " +:+ id));;
              modify_page (λ v, set_revoked
                                  (revoked v ++ (preview <$> images v)) v);;
              emit (EvSetTimeoutGoto (base env +:+ "/dashboard") 2000)
          end
  end.

(** Lines 282-293: the [catch] block. *)
Definition handleDone_catch (err : Caught) : M Vars JsExn unit :=
  modify_page (set_errorMessage
    match err with
    | ApiError detailedError (BodyValue true _ _ _ _ pretty) =>
        "Failed to create post:" +:+ String.String (Ascii.ascii_of_N 10) detailedError
        +:+ String.String (Ascii.ascii_of_N 10)
              (String.String (Ascii.ascii_of_N 10)
                 ("Full error details: " +:+ pretty))
    | ApiError detailedError _ =>
        "Failed to create post: " +:+ or_else (Some detailedError) "Unknown error"
    | Raised e =>
        "Failed to create post: " +:+ or_else (exn_message e) "Unknown error"
    end);;
  modify_page (set_statusMessage "").

(** Lines 127-297. *)
Definition handleDone (env : Env) : M Vars JsExn unit :=
  v ← get_page;
  if bool_decide (images v = [])
  then mret tt
  else
    modify_page (set_statusMessage "");;
    modify_page (set_errorMessage "");;
    modify_page (set_isSubmitting true);;
    try_catch (handleDone_try env v) handleDone_catch;;
    modify_page (set_isSubmitting false).

(** Lines 313-317. *)
Definition cancel (env : Env) : M Vars JsExn unit :=
  modify_page (λ v, set_revoked (revoked v ++ (preview <$> images v)) v);;
  emit (EvGoto (base env +:+ "/dashboard")).

End NewPost.

(** ** Reading the log and the store *)

(** The token-exchange requests a run has issued. *)
Definition exchange_requests (l : list Event) : list (string * string) :=
  omap (λ ev, match ev with
              | EvValidateAuthorizationCode c v => Some (c, v)
              | _ => None
              end) l.

(** The keys a run has written with [setItem]. *)
Definition keys_set (l : list Event) : list string :=
  omap (λ ev, match ev with
              | EvSetItem k _ => Some k
              | _ => None
              end) l.

(** The keys a run has removed with [removeItem]. *)
Definition keys_removed (l : list Event) : list string :=
  omap (λ ev, match ev with
              | EvRemoveItem k => Some k
              | _ => None
              end) l.

(** How the pages read the credential (first lines of the [onMount] of the
    home, repositories and new-post pages): the access token under its key,
    [None] for "absent". *)
Definition read (s : gmap string string) : option string := s !! k_access_token.

(** Where a run sends the browser: the targets of [goto] (immediate or
    scheduled) and of assignments to [window.location.href]. *)
Definition navigations (l : list Event) : list string :=
  omap (λ ev, match ev with
              | EvGoto p | EvSetTimeoutGoto p _ | EvLocationHref p => Some p
              | _ => None
              end) l.

(** The requests a run has sent with [fetch]: URL and bearer token. *)
Definition fetches (l : list Event) : list (string * string) :=
  omap (λ ev, match ev with
              | EvFetch url bearer => Some (url, bearer)
              | _ => None
              end) l.

(** The events a handler has appended to the log of the tab it started
    from. *)
Definition since {P} (t t' : Tab P) : list Event :=
  drop (length (log t)) (log t').

(** The steps of the login that leave the stored parameters behind:
    building the authorization URL and assigning [window.location.href]. *)
Definition redirect_step (ev : Event) : bool :=
  match ev with
  | EvCreateAuthorizationURL _ _ _ _ | EvLocationHref _ => true
  | _ => false
  end.

(** The four keys of the login flow, under the names the pages give them. *)
Definition layout : list string :=
  [k_oauth_state; k_code_verifier; k_access_token; k_refresh_token].

(** The key names as the interface description lists them, for comparison
    with [layout]. *)
Definition documented_layout : list string :=
  ["oauth_state"; "code_verifier"; "access_token"; "refresh_token"].

(** What a logout must do to the credential: return normally, leave no
    access token to read, leave an empty store empty, and change nothing
    when it is run a second time. *)
Definition clears_credential {P} (logout : M P JsExn unit) : Prop :=
  ∀ t : Tab P,
    (logout t).1 = Ret tt ∧
    read (sessionStorage (logout t).2) = None ∧
    (sessionStorage t = ∅ → sessionStorage (logout t).2 = ∅) ∧
    sessionStorage (logout (logout t).2).2 = sessionStorage (logout t).2.

(** All four keys of [layout] are gone after the logout. *)
Definition clears_layout {P} (logout : M P JsExn unit) : Prop :=
  ∀ t : Tab P, Forall (λ k, sessionStorage (logout t).2 !! k = None) layout.

(** The store a committed run leaves behind. *)
Definition committed_store (s : gmap string string) (T : string)
    (refresh : option string) : gmap string string :=
  delete k_code_verifier (delete k_oauth_state
    (if truthy refresh
     then <[k_refresh_token := default "" refresh]> (<[k_access_token := T]> s)
     else <[k_access_token := T]> s)).

(** The folder of a post: [isoTimestamp.split('T')[0]]. *)
Definition date_folder (isoTimestamp : string) : string :=
  default "" (head (split NewPost.T_char isoTimestamp)).

(** The posts the page has for [pure.yml] before it adds one: those of the
    parsed file when it has an array of them, none otherwise. *)
Definition known_posts (yml : option NewPost.Yml) : list NewPost.Post :=
  match yml with
  | Some (NewPost.mkYml (NewPost.PostsArray items) _) => items
  | _ => []
  end.

Definition known_others (yml : option NewPost.Yml) : list (string * string) :=
  match yml with
  | Some y => NewPost.others y
  | None => []
  end.

(** What the page has changed when a handler is done with it, apart from
    the messages, the flag and the records: nothing. *)
Definition same_draft (v v' : NewPost.Vars) : Prop :=
  NewPost.selectedRepo v' = NewPost.selectedRepo v ∧
  NewPost.images v' = NewPost.images v ∧
  NewPost.postDatetime v' = NewPost.postDatetime v ∧
  NewPost.postTitle v' = NewPost.postTitle v ∧
  NewPost.accessToken v' = NewPost.accessToken v.

(** ** Sample runs *)

Module Sample.

Definition gitlab : string := "https://gitlab.com".

(** A login is pending: both flow parameters are stored. *)
Definition pending : gmap string string :=
  <[k_oauth_state := "S"]> (<[k_code_verifier := "V"]> ∅).

(** A user is logged in and has picked a repository. *)
Definition logged_in : gmap string string :=
  <[k_access_token := "T"]> (<[k_refresh_token := "R"]>
    (<[k_selected_repo := "{}"]> ∅)).

Definition tokens : Tokens := mkTokens (Ret "T") (Ret (Some "R")).

(** What the arctic client makes of a token response that carries an
    access token and no refresh token: [accessToken()] returns, and
    [refreshToken()] raises. *)
Definition missing_refresh_token : JsExn :=
  JsError "Missing or invalid 'refresh_token' field".

Definition access_only : Tokens :=
  mkTokens (Ret "T") (Throw missing_refresh_token).

Definition alice : Response := mkResponse true (Ret (JUser "alice")).

Definition unauthorized : Response :=
  mkResponse false (Ret (JUser "undefined")).

Definition invalid_grant : JsExn := JsError "invalid_grant".

Definition network_down : JsExn := JsError "Failed to fetch".

(** A redirect carrying code [abc] and the given [state], against a
    provider that answers the exchange with [exchange] and every API
    request with [user]. *)
Definition callback (state : string) (exchange : Res JsExn Tokens)
    (user : Res JsExn Response) : Callback.Env :=
  Callback.mkEnv gitlab "" (Some "abc") (Some state)
                 (λ _ _, exchange) (λ _ _, user).

Definition home (user : Res JsExn Response) : Home.Env :=
  Home.mkEnv gitlab (Ret "S") (Ret "V")
             (λ state _ _ _, Ret (gitlab +:+ "/oauth/authorize?state=" +:+ state))
             (λ _ _, user).

(** A project of the list, and what the store holds for it. *)
Definition project : RepoJson :=
  mkRepoJson true (Ret "42") "42" (Some "trunk") "{id:42,default_branch:trunk}".

(** A user is logged in and has selected [project]. *)
Definition browsing : gmap string string :=
  <[k_selected_repo := repo_stringify project]> logged_in.

Definition project_without_id : RepoJson :=
  mkRepoJson true (Throw (JsError "r.id is undefined")) "undefined" None "{}".

Definition parse (text : string) : Res JsExn (option RepoJson) :=
  if decide (text = repo_stringify project) then Ret (Some project)
  else if decide (text = "null") then Ret None
  else Throw (JsError "Unexpected token").

Definition repos (projects : Res JsExn (Reply (list RepoJson))) : Repos.Env :=
  Repos.mkEnv gitlab "" (λ _ _, projects)
              (λ _ _, Ret (mkReply true "200" (Ret [mkTreeItem "blob" "README.md"]))).

Definition dashboard : Dashboard.Env := Dashboard.mkEnv "" parse.

Definition photo : NewPost.File :=
  NewPost.mkFile "cat.png" "image/png" (Ret "data:image/png;base64,AAAA").


Definition earlier_posts : NewPost.Yml :=
  NewPost.mkYml (NewPost.PostsArray [NewPost.Existing "first post"])
                [("title", "My site")].

(** A provider that serves [pure.yml] with [loaded] and answers the
    commit with [answer]; YAML and base64 texts are only counted. *)
Definition new_post (loaded : Res JsExn (Reply (option NewPost.Yml)))
    (answer : Res JsExn (Reply NewPost.CommitBody)) : NewPost.Env :=
  NewPost.mkEnv gitlab "" parse "2024-05-06T07:08:09.000Z"
    (λ text, if decide (text = "") then Throw (JsError "Invalid time value")
             else Ret (text +:+ ":00.000Z"))
    (λ _ _, loaded)
    (λ yml, Ret match NewPost.posts yml with
                | NewPost.PostsArray [] => "posts: none"
                | NewPost.PostsArray [_] => "posts: one"
                | NewPost.PostsArray (_ :: _ :: _) => "posts: several"
                | _ => "no posts"
                end)
    (λ text, Ret ("b64(" +:+ text +:+ ")"))
    (λ _, answer)
    (λ expression, "TypeError: " +:+ expression).

Definition created : Reply NewPost.CommitBody :=
  mkReply true "201" (Ret (NewPost.BodyValue true "c0ffee" None None None "{}")).

Definition rejected : Reply NewPost.CommitBody :=
  mkReply false "400"
    (Ret (NewPost.BodyValue true "undefined"
            (Some "A file with this name already exists") None None "{...}")).

(** The page with one picked image, after a load that found [loaded]. *)
Definition drafting (loaded : option NewPost.Yml) : NewPost.Vars :=
  NewPost.mkVars (Some project)
    [NewPost.mkImage "id-1" photo "blob:1" "A cat"]
    "2024-05-06T07:08" "Cats" (Some "T") loaded false "" "" [] [].

End Sample.

(** * Properties *)

Import Callback(Committed, Failed, MissingParameter, StateMismatch,
                MissingVerifier, TokenExchangeError, IdentityFetchError, Foreign).

Lemma truthy_Some s : s ≠ "" → truthy (Some s) = true.
Proof. intros H. unfold truthy. by rewrite bool_decide_eq_true. Qed.

Lemma truthy_true v : truthy v = true → ∃ s, v = Some s ∧ s ≠ "".
Proof.
  destruct v as [s|]; simpl; [|done].
  rewrite bool_decide_eq_true. eauto.
Qed.

Lemma strict_eq_refl a : strict_eq a (Some a) = true.
Proof. unfold strict_eq. by rewrite bool_decide_eq_true. Qed.

Lemma strict_eq_ne a b : b ≠ Some a → strict_eq a b = false.
Proof. intros H. unfold strict_eq. by rewrite bool_decide_eq_false. Qed.

Ltac step_env :=
  match goal with
  | |- context [Callback.validateAuthorizationCode ?e ?c ?v] =>
      destruct (Callback.validateAuthorizationCode e c v) as [?tokens|?] eqn:?
  | |- context [accessToken ?a] => destruct (accessToken a) as [?token|?] eqn:?
  | |- context [Callback.fetch ?e ?u ?t] =>
      destruct (Callback.fetch e u t) as [?resp|?] eqn:?
  | |- context [ok ?r] => destruct (ok r) eqn:?
  | |- context [json ?r] => destruct (json r) as [[?|?]|?] eqn:?
  | |- context [refreshToken ?a] => destruct (refreshToken a) as [?rt|?] eqn:?
  | |- context [truthy ?a] => destruct (truthy a) eqn:?
  end; simpl.

Ltac unfold_monad :=
  unfold Callback.onMount, Callback.onMount_catch, Callback.onMount_try,
    Callback.token_info, Callback.unguarded, Callback.set_status,
    Callback.set_error, mbind, mret, M_bind, M_ret, bind, ret, throw,
    try_catch, getItem, setItem, removeItem, emit, eval, modify_page, fresh in *.

(** ** The callback reaches the exchange *)

Section CallbackRun.

Variable env : Callback.Env.
Variable s : gmap string string.
Variables code state : string.

(** The redirect carried a [code] and a [state] (step [ParsingCallback]
    succeeded). *)
Hypothesis Hcode : Callback.code env = Some code.
Hypothesis Hcode_ne : code ≠ "".
Hypothesis Hstate : Callback.state env = Some state.
Hypothesis Hstate_ne : state ≠ "".

(** C1. With a [code] and a [state] in the redirect: when the stored
    [oauth_state] is absent or differs from the received [state], the run
    fails with [StateMismatch], shows the CSRF message, and issues no
    token-exchange request; when it equals the received [state], the run
    does not fail with [StateMismatch], and with a stored verifier it
    issues exactly one exchange request, carrying the received code and
    that verifier. *)
Theorem state_validation :
  (s !! k_oauth_state ≠ Some state →
     Callback.outcome env s = Failed StateMismatch ∧
     Callback.error (page (Callback.final env s))
       = "Invalid state parameter - possible CSRF attack" ∧
     exchange_requests (log (Callback.final env s)) = []) ∧
  (s !! k_oauth_state = Some state →
     Callback.outcome env s ≠ Failed StateMismatch ∧
     ∀ v, s !! k_code_verifier = Some v → v ≠ "" →
          exchange_requests (log (Callback.final env s)) = [(code, v)]).
Proof.
  split.
  - intros Hst. unfold Callback.outcome, Callback.final. unfold_monad.
    rewrite Hcode, Hstate, !truthy_Some by done. simpl.
    rewrite strict_eq_ne by done. rewrite orb_true_r. done.
  - intros Hst. unfold Callback.outcome, Callback.final. unfold_monad.
    rewrite Hcode, Hstate, !truthy_Some by done. simpl.
    rewrite Hst, truthy_Some, strict_eq_refl by done. simpl.
    split.
    + repeat step_env; done.
    + intros v Hv Hv'. rewrite Hv, truthy_Some by done. simpl.
      repeat step_env; done.
Qed.

(** From here on the stored flow parameters are the ones the redirect
    answers: the run gets as far as the token exchange. *)
Variable verifier : string.
Hypothesis Hstored : s !! k_oauth_state = Some state.
Hypothesis Hverifier : s !! k_code_verifier = Some verifier.
Hypothesis Hverifier_ne : verifier ≠ "".

Ltac to_exchange :=
  unfold Callback.outcome, Callback.final, read; unfold_monad;
  rewrite Hcode, Hstate, !truthy_Some by done; simpl;
  rewrite Hstored, truthy_Some, strict_eq_refl by done; simpl;
  rewrite Hverifier, truthy_Some by done; simpl.

(** C3. When the token endpoint answers the exchange with an error (the
    client call raises), the run ends in [Failed (TokenExchangeError _)]
    with the provider's message shown, the storage is exactly what it was
    and no key was written: a credential that was absent is still
    absent.  The exchange was attempted once. *)
Theorem exchange_error_stores_nothing (tokenError : JsExn) :
  Callback.validateAuthorizationCode env code verifier = Throw tokenError →
  Callback.outcome env s = Failed (TokenExchangeError tokenError) ∧
  Callback.error (page (Callback.final env s))
    = "Token exchange failed: "
      +:+ or_else (exn_message tokenError) "Unknown error" ∧
  sessionStorage (Callback.final env s) = s ∧
  keys_set (log (Callback.final env s)) = [] ∧
  (read s = None → read (sessionStorage (Callback.final env s)) = None) ∧
  exchange_requests (log (Callback.final env s)) = [(code, verifier)].
Proof.
  intros Hex. to_exchange. rewrite Hex. simpl. done.
Qed.

Variable tokens : Tokens.
Variable T : string.
Hypothesis Hexchange :
  Callback.validateAuthorizationCode env code verifier = Ret tokens.
Hypothesis Haccess : accessToken tokens = Ret T.

(** C4. When the exchange has returned an access token and the identity
    request is answered with a failure status, the run ends in
    [Failed IdentityFetchError], and the token is not committed: the
    storage is exactly what it was and no key was written. *)
Theorem identity_failure_commits_nothing (userResponse : Response) :
  Callback.fetch env (Callback.GITLAB_URL env +:+ "/api/v4/user") T
    = Ret userResponse →
  ok userResponse = false →
  Callback.outcome env s = Failed IdentityFetchError ∧
  Callback.error (page (Callback.final env s)) = "Failed to fetch user info" ∧
  sessionStorage (Callback.final env s) = s ∧
  keys_set (log (Callback.final env s)) = [].
Proof.
  intros Hfetch Hok. to_exchange. rewrite Hexchange. simpl.
  rewrite Haccess. simpl. rewrite Hfetch. simpl. rewrite Hok. simpl. done.
Qed.

(** X6. When the identity request does not complete at all (the call raises),
    the exception reaches the [catch] block before anything is written. *)
Lemma identity_exception_commits_nothing (e : JsExn) :
  Callback.fetch env (Callback.GITLAB_URL env +:+ "/api/v4/user") T = Throw e →
  Callback.outcome env s = Failed (Foreign e) ∧
  sessionStorage (Callback.final env s) = s ∧
  keys_set (log (Callback.final env s)) = [].
Proof.
  intros Hfetch. to_exchange. rewrite Hexchange. simpl.
  rewrite Haccess. simpl. rewrite Hfetch. simpl. done.
Qed.

(** X27. When the exchange returns tokens whose [accessToken()] gives [T]
    and whose [refreshToken()] returns as well (the response carries a
    refresh token), and the identity request succeeds with a user record,
    the run ends [Committed], the success status is shown, reading the
    credential back gives [T], and a non-empty refresh token is stored next
    to it; should the accessor return a falsy value, the refresh key is
    left as it was.  A response without refresh token, for which the
    accessor raises, is not covered here. *)
Theorem commit_stores_credential
    (refresh : option string) (userResponse : Response) (username : string) :
  refreshToken tokens = Ret refresh →
  Callback.fetch env (Callback.GITLAB_URL env +:+ "/api/v4/user") T
    = Ret userResponse →
  ok userResponse = true →
  json userResponse = Ret (JUser username) →
  Callback.outcome env s = Committed ∧
  Callback.status (page (Callback.final env s))
    = "Success! Logged in as " +:+ username +:+ ". Redirecting..." ∧
  read (sessionStorage (Callback.final env s)) = Some T ∧
  (∀ r, refresh = Some r → r ≠ "" →
        sessionStorage (Callback.final env s) !! k_refresh_token = Some r) ∧
  (truthy refresh = false →
        sessionStorage (Callback.final env s) !! k_refresh_token
        = s !! k_refresh_token).
Proof.
  intros Hrefresh Hfetch Hok Hjson. to_exchange. rewrite Hexchange. simpl.
  rewrite Haccess. simpl. rewrite Hfetch. simpl. rewrite Hok. simpl.
  rewrite Hjson. simpl. rewrite Hrefresh. simpl.
  destruct (truthy refresh) eqn:Htr; simpl.
  - apply truthy_true in Htr as (r & -> & Hr). simpl.
    destruct (Callback.fetch env (Callback.GITLAB_URL env +:+ "/oauth/token/info") T)
      as [info|] eqn:Hinfo; simpl;
      [destruct (ok info); simpl; [destruct (json info); simpl|]|].
    all: repeat split; try done.
    all: try (intros r' [= <-] _).
    all: unfold k_oauth_state, k_code_verifier, k_access_token, k_refresh_token;
      by simplify_map_eq.
  - destruct (Callback.fetch env (Callback.GITLAB_URL env +:+ "/oauth/token/info") T)
      as [info|] eqn:Hinfo; simpl;
      [destruct (ok info); simpl; [destruct (json info); simpl|]|].
    all: repeat split; try done.
    all: try (intros r' -> Hr'; by rewrite truthy_Some in Htr).
    all: unfold k_oauth_state, k_code_verifier, k_access_token, k_refresh_token;
      by simplify_map_eq.
Qed.

(** X7. The access token is written before the refresh token is asked for:
    should that accessor raise, the run fails with the token already in
    the store and the flow parameters still there. *)
Lemma refresh_accessor_raises
    (e : JsExn) (userResponse : Response) (info : UserJson) :
  refreshToken tokens = Throw e →
  Callback.fetch env (Callback.GITLAB_URL env +:+ "/api/v4/user") T
    = Ret userResponse →
  ok userResponse = true →
  json userResponse = Ret info →
  Callback.outcome env s = Failed (Foreign e) ∧
  sessionStorage (Callback.final env s) = <[k_access_token := T]> s.
Proof.
  intros Hrefresh Hfetch Hok Hjson. to_exchange. rewrite Hexchange. simpl.
  rewrite Haccess. simpl. rewrite Hfetch. simpl. rewrite Hok. simpl.
  rewrite Hjson. simpl. rewrite Hrefresh. simpl. done.
Qed.

End CallbackRun.

(** ** Cleanup of the flow parameters *)

(** C2 (amended). A run that ends [Committed] leaves neither [oauth_state]
    nor [code_verifier] in the storage.  A run that ends in a failure the
    handler signals itself (missing parameter, state mismatch, missing
    verifier, token-exchange error, identity-fetch error) leaves the storage
    exactly as it found it, stored flow parameters included. *)
Theorem cleanup_on_commit_only (env : Callback.Env) (s : gmap string string) :
  (Callback.outcome env s = Committed →
     sessionStorage (Callback.final env s) !! k_oauth_state = None ∧
     sessionStorage (Callback.final env s) !! k_code_verifier = None) ∧
  (∀ reason, Callback.outcome env s = Failed reason →
     Callback.raised_by_handler reason = true →
     sessionStorage (Callback.final env s) = s).
Proof.
  unfold Callback.outcome, Callback.final. unfold_monad.
  destruct (truthy (Callback.code env)); simpl;
    [destruct (truthy (Callback.state env)); simpl|];
    [destruct (truthy (s !! k_oauth_state)); simpl|..];
    [destruct (strict_eq _ (s !! k_oauth_state)); simpl|..];
    [destruct (truthy (s !! k_code_verifier)); simpl|..].
  2-6: by (split; [done|intros r [= <-] _]).
  repeat step_env.
  all: split; [try done|intros r' [= <-]; try done].
  all: intros _; unfold k_oauth_state, k_code_verifier, k_access_token,
    k_refresh_token; by simplify_map_eq.
Qed.

(** C2 (as stated) fails: a redirect with a forged [state] ends in
    [Failed StateMismatch] and both stored flow parameters are still there. *)
Lemma cleanup_skipped_on_failure :
  let env := Sample.callback "forged" (Ret Sample.tokens) (Ret Sample.alice) in
  Callback.outcome env Sample.pending = Failed StateMismatch ∧
  sessionStorage (Callback.final env Sample.pending) !! k_oauth_state = Some "S" ∧
  sessionStorage (Callback.final env Sample.pending) !! k_code_verifier = Some "V".
Proof. vm_compute. done. Qed.

Lemma cleanup_on_commit_only_witness :
  let env := Sample.callback "S" (Ret Sample.tokens) (Ret Sample.alice) in
  Callback.outcome env Sample.pending = Committed ∧
  sessionStorage (Callback.final env Sample.pending) !! k_oauth_state = None ∧
  sessionStorage (Callback.final env Sample.pending) !! k_code_verifier = None.
Proof.
  intros env.
  assert (Callback.outcome env Sample.pending = Committed) as H by reflexivity.
  split; [exact H|].
  exact (proj1 (cleanup_on_commit_only env Sample.pending) H).
Defined.

(** ** The sample runs of the callback *)

Lemma state_validation_witness :
  let forged := Sample.callback "forged" (Ret Sample.tokens) (Ret Sample.alice) in
  let honest := Sample.callback "S" (Ret Sample.tokens) (Ret Sample.alice) in
  (Sample.pending !! k_oauth_state ≠ Some "forged" ∧
   Callback.outcome forged Sample.pending = Failed StateMismatch ∧
   exchange_requests (log (Callback.final forged Sample.pending)) = []) ∧
  (Sample.pending !! k_oauth_state = Some "S" ∧
   exchange_requests (log (Callback.final honest Sample.pending)) = [("abc", "V")]).
Proof.
  intros forged honest. split.
  - assert (Sample.pending !! k_oauth_state ≠ Some "forged") as Hne by done.
    split; [exact Hne|].
    destruct (proj1 (state_validation forged Sample.pending "abc" "forged"
                       eq_refl ltac:(done) eq_refl ltac:(done)) Hne)
      as (Hout & _ & Hreq).
    exact (conj Hout Hreq).
  - split; [reflexivity|].
    exact (proj2 (proj2 (state_validation honest Sample.pending "abc" "S"
                           eq_refl ltac:(done) eq_refl ltac:(done)) eq_refl)
                 "V" eq_refl ltac:(done)).
Defined.

Lemma exchange_error_stores_nothing_witness :
  let env := Sample.callback "S" (Throw Sample.invalid_grant) (Ret Sample.alice) in
  Callback.validateAuthorizationCode env "abc" "V" = Throw Sample.invalid_grant ∧
  Callback.outcome env Sample.pending
    = Failed (TokenExchangeError Sample.invalid_grant) ∧
  sessionStorage (Callback.final env Sample.pending) = Sample.pending ∧
  read (sessionStorage (Callback.final env Sample.pending)) = None.
Proof.
  intros env. split; [reflexivity|].
  destruct (exchange_error_stores_nothing env Sample.pending "abc" "S"
              eq_refl ltac:(done) eq_refl ltac:(done)
              "V" eq_refl eq_refl ltac:(done) Sample.invalid_grant eq_refl)
    as (Hout & _ & Hsame & _ & Hread & _).
  exact (conj Hout (conj Hsame (Hread eq_refl))).
Defined.

Lemma identity_failure_commits_nothing_witness :
  let env := Sample.callback "S" (Ret Sample.tokens) (Ret Sample.unauthorized) in
  ok Sample.unauthorized = false ∧
  Callback.outcome env Sample.pending = Failed IdentityFetchError ∧
  sessionStorage (Callback.final env Sample.pending) = Sample.pending.
Proof.
  intros env. split; [reflexivity|].
  destruct (identity_failure_commits_nothing env Sample.pending "abc" "S"
              eq_refl ltac:(done) eq_refl ltac:(done)
              "V" eq_refl eq_refl ltac:(done) Sample.tokens "T" eq_refl eq_refl
              Sample.unauthorized eq_refl eq_refl)
    as (Hout & _ & Hsame & _).
  exact (conj Hout Hsame).
Defined.

Lemma commit_stores_credential_witness :
  let env := Sample.callback "S" (Ret Sample.tokens) (Ret Sample.alice) in
  json Sample.alice = Ret (JUser "alice") ∧
  Callback.outcome env Sample.pending = Committed ∧
  read (sessionStorage (Callback.final env Sample.pending)) = Some "T" ∧
  sessionStorage (Callback.final env Sample.pending) !! k_refresh_token = Some "R".
Proof.
  intros env. split; [reflexivity|].
  destruct (commit_stores_credential env Sample.pending "abc" "S"
              eq_refl ltac:(done) eq_refl ltac:(done)
              "V" eq_refl eq_refl ltac:(done) Sample.tokens "T" eq_refl eq_refl
              (Some "R") Sample.alice "alice" eq_refl eq_refl eq_refl eq_refl)
    as (Hout & _ & Hread & Hrefresh & _).
  exact (conj Hout (conj Hread (Hrefresh "R" eq_refl ltac:(done)))).
Defined.

(** C5 (the code at the failing input).  The token response carries the
    access token [T] and no refresh token, so [tokens.refreshToken()]
    raises; code, state and verifier are valid and the identity request
    succeeds.  The handler writes [T] (line 120), and the call of line 123
    then throws before the guard [if (refreshToken)] is reached: the run
    does not end [Committed], the page shows the error, both flow
    parameters are still stored and no move to the repositories page is
    scheduled. *)
Lemma commit_fails_without_refresh_token :
  let env := Sample.callback "S" (Ret Sample.access_only) (Ret Sample.alice) in
  let t' := Callback.final env Sample.pending in
  Callback.outcome env Sample.pending
  = Failed (Foreign Sample.missing_refresh_token) ∧
  Callback.outcome env Sample.pending ≠ Committed ∧
  read (sessionStorage t') = Some "T" ∧
  sessionStorage t' !! k_refresh_token = None ∧
  sessionStorage t' !! k_oauth_state = Some "S" ∧
  sessionStorage t' !! k_code_verifier = Some "V" ∧
  Callback.status (page t') = "Error during authentication" ∧
  Callback.error (page t') = "Missing or invalid 'refresh_token' field" ∧
  navigations (log t') = [].
Proof.
  intros env t'.
  assert (Callback.outcome env Sample.pending
          = Failed (Foreign Sample.missing_refresh_token)) as Hout by reflexivity.
  split; [exact Hout|]. split; [by rewrite Hout|].
  subst t'. vm_compute. done.
Qed.

(** ** Logout *)

Lemma home_logout_run (t : Tab Home.Vars) :
  (Home.logout t).1 = Ret tt ∧
  sessionStorage (Home.logout t).2
  = delete k_code_verifier (delete k_oauth_state
      (delete k_refresh_token (delete k_access_token (sessionStorage t)))).
Proof. done. Qed.

Lemma repos_logout_run {P} (base : string) (t : Tab P) :
  (Repos.logout base t).1 = Ret tt ∧
  sessionStorage (Repos.logout base t).2
  = delete k_selected_repo (delete k_code_verifier (delete k_oauth_state
      (delete k_refresh_token (delete k_access_token (sessionStorage t))))).
Proof. done. Qed.

Lemma dashboard_logout_run {P} (base : string) (t : Tab P) :
  (Dashboard.logout base t).1 = Ret tt ∧
  sessionStorage (Dashboard.logout base t).2
  = delete k_selected_repo (delete k_code_verifier (delete k_oauth_state
      (delete k_refresh_token (delete k_access_token (sessionStorage t))))).
Proof. done. Qed.

Lemma callback_logout_run {P} (base : string) (t : Tab P) :
  (Callback.logout base t).1 = Ret tt ∧
  sessionStorage (Callback.logout base t).2
  = delete k_selected_repo (delete k_code_verifier (delete k_oauth_state
      (delete k_refresh_token (delete k_access_token (sessionStorage t))))).
Proof. done. Qed.

Ltac list_sub :=
  try done; intros ?; rewrite ?elem_of_cons, ?elem_of_nil; tauto.

Ltac keys := unfold k_oauth_state, k_code_verifier, k_access_token,
  k_refresh_token, k_selected_repo in *.

Lemma lookup_foldr_delete (ks : list string) (m : gmap string string) (i : string) :
  foldr (λ k m, delete k m) m ks !! i = if decide (i ∈ ks) then None else m !! i.
Proof.
  induction ks as [|k ks IH]; simpl.
  - done.
  - destruct (decide (k = i)) as [->|Hne].
    + rewrite lookup_delete_eq, decide_True; [done|]. apply elem_of_cons; by left.
    + rewrite lookup_delete_ne, IH by done.
      destruct (decide (i ∈ ks)) as [Hin|Hout].
      * rewrite decide_True; [done|]. apply elem_of_cons; by right.
      * rewrite decide_False; [done|]. rewrite not_elem_of_cons. by split.
Qed.

Lemma clears_credential_intro {P} (logout : M P JsExn unit) (ks : list string) :
  k_access_token ∈ ks →
  (∀ t, (logout t).1 = Ret tt ∧
        sessionStorage (logout t).2
        = foldr (λ k m, delete k m) (sessionStorage t) ks) →
  clears_credential logout.
Proof.
  intros Hin Hrun t.
  destruct (Hrun t) as [Hret Hst].
  split; [done|]. rewrite Hst. split; [|split].
  - unfold read. rewrite lookup_foldr_delete. by rewrite decide_True.
  - intros ->. apply map_eq. intros i. rewrite lookup_foldr_delete.
    by destruct (decide (i ∈ ks)).
  - rewrite (proj2 (Hrun (logout t).2)), Hst.
    apply map_eq. intros i. rewrite !lookup_foldr_delete.
    by destruct (decide (i ∈ ks)).
Qed.

(** C8. For each of the four logout operations and every state of the tab:
    the operation returns normally, a read of the credential afterwards
    finds none, on an empty store it leaves the store empty, and running it
    again changes nothing. *)
Theorem logout_then_read :
  clears_credential Home.logout ∧
  ∀ (P : Type) (base : string),
    clears_credential (P:=P) (Repos.logout base) ∧
    clears_credential (P:=P) (Dashboard.logout base) ∧
    clears_credential (P:=P) (Callback.logout base).
Proof.
  split; [|intros P base; split; [|split]].
  - apply (clears_credential_intro _
             [k_code_verifier; k_oauth_state; k_refresh_token; k_access_token]).
    + set_solver.
    + apply home_logout_run.
  - apply (clears_credential_intro _
             [k_selected_repo; k_code_verifier; k_oauth_state; k_refresh_token;
              k_access_token]).
    + set_solver.
    + apply repos_logout_run.
  - apply (clears_credential_intro _
             [k_selected_repo; k_code_verifier; k_oauth_state; k_refresh_token;
              k_access_token]).
    + set_solver.
    + apply dashboard_logout_run.
  - apply (clears_credential_intro _
             [k_selected_repo; k_code_verifier; k_oauth_state; k_refresh_token;
              k_access_token]).
    + set_solver.
    + apply callback_logout_run.
Qed.

(** C10. The logout of the home page removes the four keys of the login
    flow and nothing else, so a stored [selected_repo] stays as it was; the
    logouts of the repositories, dashboard and callback pages remove the
    four keys and [selected_repo] too. *)
Theorem home_logout_keeps_selected_repo :
  (∀ t : Tab Home.Vars,
     let s' := sessionStorage (Home.logout t).2 in
     Forall (λ k, s' !! k = None) layout ∧
     s' !! k_selected_repo = sessionStorage t !! k_selected_repo ∧
     ∀ k, k ∉ layout → s' !! k = sessionStorage t !! k) ∧
  (∀ (P : Type) (base : string) (t : Tab P),
     Forall (λ logout : M P JsExn unit,
               let s' := sessionStorage (logout t).2 in
               Forall (λ k, s' !! k = None) layout ∧
               s' !! k_selected_repo = None)
            [Repos.logout base; Dashboard.logout base; Callback.logout base]).
Proof.
  split.
  - intros t s'. subst s'. rewrite (proj2 (home_logout_run t)).
    split; [|split].
    + unfold layout. keys. repeat constructor; by simplify_map_eq.
    + keys. by simplify_map_eq.
    + intros k Hk. unfold layout in Hk. keys.
      rewrite !lookup_delete_ne by set_solver. done.
  - intros P base t.
    repeat constructor; simpl; unfold layout; keys; by simplify_map_eq.
Qed.

Lemma logout_then_read_witness :
  sessionStorage (fresh (∅ : gmap string string) Home.initial) = ∅ ∧
  sessionStorage (Home.logout (fresh ∅ Home.initial)).2 = ∅ ∧
  read (sessionStorage (Home.logout (fresh Sample.logged_in Home.initial)).2) = None.
Proof.
  split; [reflexivity|]. split.
  - exact (proj1 (proj2 (proj2 (proj1 logout_then_read (fresh ∅ Home.initial))))
                 eq_refl).
  - exact (proj1 (proj2 (proj1 logout_then_read
                           (fresh Sample.logged_in Home.initial)))).
Defined.

Lemma home_logout_keeps_selected_repo_witness :
  (k_selected_repo ∉ layout) ∧
  (sessionStorage (Home.logout (fresh Sample.logged_in Home.initial)).2)
    !! k_selected_repo = Some "{}".
Proof.
  assert (k_selected_repo ∉ layout) as Hout.
  { unfold layout. keys. by rewrite !elem_of_cons, elem_of_nil; intros [|[|[|[|]]]]. }
  split; [exact Hout|].
  exact (proj2 (proj2 (proj1 home_logout_keeps_selected_repo
                         (fresh Sample.logged_in Home.initial)))
               k_selected_repo Hout).
Defined.

(** ** Startup of the home page *)

(** C9. With a non-empty access token in the store, the startup handler
    returns normally and: when the identity request is answered with a
    failure status, both token keys are removed (and nothing else is); when
    the request raises, the store is left exactly as it was.  In both cases
    the page does not show the user as logged in. *)
Theorem startup_clears_rejected_token
    (env : Home.Env) (s : gmap string string) (token : string) :
  s !! k_access_token = Some token →
  token ≠ "" →
  let run := Home.onMount env (fresh s Home.initial) in
  run.1 = Ret tt ∧
  (∀ response,
     Home.fetch env (Home.GITLAB_URL env +:+ "/api/v4/user") token = Ret response →
     ok response = false →
     sessionStorage run.2 = delete k_refresh_token (delete k_access_token s) ∧
     sessionStorage run.2 !! k_access_token = None ∧
     sessionStorage run.2 !! k_refresh_token = None ∧
     Home.isLoggedIn (page run.2) = false) ∧
  (∀ e,
     Home.fetch env (Home.GITLAB_URL env +:+ "/api/v4/user") token = Throw e →
     sessionStorage run.2 = s ∧
     Home.isLoggedIn (page run.2) = false).
Proof.
  intros Htoken Hne run. subst run.
  unfold Home.onMount, mbind, mret, M_bind, M_ret, bind, ret, try_catch,
    getItem, removeItem, emit, eval, modify_page, fresh. simpl.
  rewrite Htoken, truthy_Some by done. simpl.
  destruct (Home.fetch env _ token) as [response|e]; simpl.
  - split; [by destruct (ok response), (json response)|]. split; [|done].
    intros ? [= <-] Hok. rewrite Hok. simpl. keys. by simplify_map_eq.
  - split; [done|]. split; [done|]. by intros ? [= <-].
Qed.

Lemma startup_clears_rejected_token_witness :
  Sample.logged_in !! k_access_token = Some "T" ∧
  (sessionStorage (Home.onMount (Sample.home (Ret Sample.unauthorized))
                     (fresh Sample.logged_in Home.initial)).2)
    !! k_refresh_token = None ∧
  sessionStorage (Home.onMount (Sample.home (Throw Sample.network_down))
                    (fresh Sample.logged_in Home.initial)).2
    = Sample.logged_in.
Proof.
  split; [reflexivity|]. split.
  - destruct (startup_clears_rejected_token
                (Sample.home (Ret Sample.unauthorized)) Sample.logged_in "T"
                eq_refl ltac:(done)) as (_ & Hrejected & _).
    destruct (Hrejected Sample.unauthorized eq_refl eq_refl)
      as (_ & _ & Hrefresh & _).
    exact Hrefresh.
  - destruct (startup_clears_rejected_token
                (Sample.home (Throw Sample.network_down)) Sample.logged_in "T"
                eq_refl ltac:(done)) as (_ & _ & Hraised).
    exact (proj1 (Hraised Sample.network_down eq_refl)).
Defined.

(** ** Login initiation *)

Lemma since_app {P} (t : Tab P) (s : gmap string string) (p : P) (new : list Event) :
  since t (mkTab s p (log t ++ new)) = new.
Proof. unfold since. simpl. apply drop_app_length. Qed.

(** What [loginWithGitLab] does, by what the arctic calls return. *)
Lemma loginWithGitLab_run (env : Home.Env) (t : Tab Home.Vars) :
  Home.loginWithGitLab env t =
  match Home.generateState env with
  | Throw e => (Throw e, t)
  | Ret state =>
      match Home.generateCodeVerifier env with
      | Throw e => (Throw e, t)
      | Ret codeVerifier =>
          let s' := <[k_code_verifier := codeVerifier]>
                      (<[k_oauth_state := state]> (sessionStorage t)) in
          let stored := [EvSetItem k_oauth_state state;
                         EvSetItem k_code_verifier codeVerifier;
                         EvCreateAuthorizationURL state 0 codeVerifier ["api"]] in
          match Home.createAuthorizationURLWithPKCE env state 0 codeVerifier ["api"] with
          | Throw e => (Throw e, mkTab s' (page t) (log t ++ stored))
          | Ret url =>
              (Ret tt, mkTab s' (page t) (log t ++ stored ++ [EvLocationHref url]))
          end
      end
  end.
Proof.
  unfold Home.loginWithGitLab, mbind, mret, M_bind, M_ret, bind, ret,
    setItem, emit, eval.
  destruct (Home.generateState env) as [state|]; [|by destruct t].
  destruct (Home.generateCodeVerifier env) as [codeVerifier|]; [|by destruct t].
  simpl.
  destruct (Home.createAuthorizationURLWithPKCE env state 0 codeVerifier ["api"]);
    simpl; by rewrite <- !app_assoc.
Qed.

(** C7. In every execution of the login step, whatever the arctic calls
    return: each step that leads away from the page (building the
    authorization URL, assigning [window.location.href]) comes after the two
    [setItem] calls, which are the first two actions of the run and whose
    values are in the store when the run ends; and when no call raises, the
    run is exactly: store the state, store the verifier, build the URL,
    navigate. *)
Theorem login_persists_before_redirect (env : Home.Env) (t : Tab Home.Vars) :
  let t' := (Home.loginWithGitLab env t).2 in
  log t' = log t ++ since t t' ∧
  (∀ pre ev post,
     since t t' = pre ++ ev :: post → redirect_step ev = true →
     ∃ state codeVerifier,
       take 2 pre = [EvSetItem k_oauth_state state;
                     EvSetItem k_code_verifier codeVerifier] ∧
       sessionStorage t' !! k_oauth_state = Some state ∧
       sessionStorage t' !! k_code_verifier = Some codeVerifier) ∧
  (∀ state codeVerifier url,
     Home.generateState env = Ret state →
     Home.generateCodeVerifier env = Ret codeVerifier →
     Home.createAuthorizationURLWithPKCE env state 0 codeVerifier ["api"] = Ret url →
     since t t' = [EvSetItem k_oauth_state state;
                   EvSetItem k_code_verifier codeVerifier;
                   EvCreateAuthorizationURL state 0 codeVerifier ["api"];
                   EvLocationHref url]).
Proof.
  intros t'. subst t'. rewrite loginWithGitLab_run.
  assert (since t t = []) as Hnone.
  { unfold since. apply drop_all. }
  destruct (Home.generateState env) as [state|]; simpl.
  2: { rewrite Hnone, app_nil_r. split; [done|]. split; [|done].
       by intros [|??] ?? ?. }
  destruct (Home.generateCodeVerifier env) as [codeVerifier|]; simpl.
  2: { rewrite Hnone, app_nil_r. split; [done|]. split; [|done].
       by intros [|??] ?? ?. }
  destruct (Home.createAuthorizationURLWithPKCE env state 0 codeVerifier ["api"])
    as [url|] eqn:Hurl; simpl; rewrite since_app.
  all: split; [done|]; split.
  1,3: intros pre ev post Heq Hstep; exists state, codeVerifier;
    destruct pre as [|e1 [|e2 pre]]; simplify_eq/=; keys; by simplify_map_eq.
  all: intros ??? [= <-] [= <-] Hurl'; rewrite Hurl in Hurl'; by simplify_eq.
Qed.

Lemma login_persists_before_redirect_witness :
  let t := fresh (∅ : gmap string string) Home.initial in
  let t' := (Home.loginWithGitLab (Sample.home (Ret Sample.alice)) t).2 in
  redirect_step (EvLocationHref "https://gitlab.com/oauth/authorize?state=S") = true ∧
  ∃ state codeVerifier,
    take 2 (since t t') = [EvSetItem k_oauth_state state;
                           EvSetItem k_code_verifier codeVerifier] ∧
    sessionStorage t' !! k_oauth_state = Some state ∧
    sessionStorage t' !! k_code_verifier = Some codeVerifier.
Proof.
  intros t t'. split; [reflexivity|].
  destruct (proj1 (proj2 (login_persists_before_redirect
                            (Sample.home (Ret Sample.alice)) t))
              [EvSetItem k_oauth_state "S"; EvSetItem k_code_verifier "V";
               EvCreateAuthorizationURL "S" 0 "V" ["api"]]
              (EvLocationHref "https://gitlab.com/oauth/authorize?state=S") []
              eq_refl eq_refl)
    as (state & codeVerifier & Htake & Hstate & Hverifier).
  exists state, codeVerifier. exact (conj Htake (conj Hstate Hverifier)).
Defined.

(** ** The layout of the store *)

(** C6 (as stated) fails: a committed login writes the token under
    [gitlab_access_token] and [gitlab_refresh_token], which are not among
    the documented names, and leaves nothing under [access_token] or
    [refresh_token]. *)
Lemma documented_layout_differs :
  let env := Sample.callback "S" (Ret Sample.tokens) (Ret Sample.alice) in
  let t' := Callback.final env Sample.pending in
  Callback.outcome env Sample.pending = Committed ∧
  keys_set (log t') = ["gitlab_access_token"; "gitlab_refresh_token"] ∧
  ¬ Forall (λ k, k ∈ documented_layout) (keys_set (log t')) ∧
  sessionStorage t' !! "access_token" = None ∧
  sessionStorage t' !! "refresh_token" = None.
Proof.
  intros env t'. split; [reflexivity|]. split; [reflexivity|]. split.
  - change (keys_set (log t')) with ["gitlab_access_token"; "gitlab_refresh_token"].
    intros Hall. apply Forall_cons_1 in Hall as [Hin _].
    unfold documented_layout in Hin.
    by rewrite !elem_of_cons, elem_of_nil in Hin; destruct Hin as [|[|[|[|]]]].
  - split; reflexivity.
Qed.

(** C6 (amended). The keys of the login flow are [oauth_state],
    [code_verifier], [gitlab_access_token] and [gitlab_refresh_token]: the
    login step writes only the first two and removes nothing; the callback
    writes only the last two and removes only the first two, which it does,
    one after the other, when it ends [Committed] (then the access token
    has been written); every logout leaves all four absent. *)
Theorem storage_layout :
  (∀ (env : Home.Env) (t : Tab Home.Vars),
     let new := since t (Home.loginWithGitLab env t).2 in
     keys_set new ⊆ [k_oauth_state; k_code_verifier] ∧ keys_removed new = []) ∧
  (∀ (env : Callback.Env) (s : gmap string string),
     let new := log (Callback.final env s) in
     keys_set new ⊆ [k_access_token; k_refresh_token] ∧
     keys_removed new ⊆ [k_oauth_state; k_code_verifier] ∧
     (Callback.outcome env s = Committed →
        k_access_token ∈ keys_set new ∧
        keys_removed new = [k_oauth_state; k_code_verifier])) ∧
  clears_layout Home.logout ∧
  (∀ (P : Type) (base : string),
     clears_layout (P:=P) (Repos.logout base) ∧
     clears_layout (P:=P) (Dashboard.logout base) ∧
     clears_layout (P:=P) (Callback.logout base)).
Proof.
  split; [|split; [|split]].
  - intros env t new. subst new. rewrite loginWithGitLab_run.
    destruct (Home.generateState env) as [state|]; simpl.
    2: { unfold since. rewrite drop_all. split; [apply list_subseteq_nil|done]. }
    destruct (Home.generateCodeVerifier env) as [codeVerifier|]; simpl.
    2: { unfold since. rewrite drop_all. split; [apply list_subseteq_nil|done]. }
    destruct (Home.createAuthorizationURLWithPKCE env state 0 codeVerifier ["api"]);
      simpl; rewrite since_app; split; list_sub.
  - intros env s new. subst new.
    unfold Callback.outcome, Callback.final. unfold_monad.
    destruct (truthy (Callback.code env)); simpl;
      [destruct (truthy (Callback.state env)); simpl|];
      [destruct (truthy (s !! k_oauth_state)); simpl|..];
      [destruct (strict_eq _ (s !! k_oauth_state)); simpl|..];
      [destruct (truthy (s !! k_code_verifier)); simpl|..].
    2-6: by (split; [|split]; [apply list_subseteq_nil..|]).
    repeat step_env.
    all: split; [list_sub|split; [list_sub|try done]].
    all: intros _; split; [|done].
    all: apply elem_of_cons; by left.
  - intros t. rewrite (proj2 (home_logout_run t)).
    unfold layout. keys. repeat constructor; by simplify_map_eq.
  - intros P base. repeat split; intros t; simpl;
      unfold layout; keys; repeat constructor; by simplify_map_eq.
Qed.

Lemma storage_layout_witness :
  let env := Sample.callback "S" (Ret Sample.tokens) (Ret Sample.alice) in
  Callback.outcome env Sample.pending = Committed ∧
  keys_removed (log (Callback.final env Sample.pending))
  = [k_oauth_state; k_code_verifier].
Proof.
  intros env.
  assert (Callback.outcome env Sample.pending = Committed) as H by reflexivity.
  split; [exact H|].
  exact (proj2 (proj2 (proj2 (proj1 (proj2 storage_layout) env Sample.pending)) H)).
Defined.

(** * Further properties of the handlers *)

(** ** The guards of the callback *)

Ltac callback_guards env s :=
  unfold Callback.outcome, Callback.final; unfold_monad;
  destruct (truthy (Callback.code env)) eqn:Hcode; simpl;
    [destruct (truthy (Callback.state env)) eqn:Hstate; simpl|];
    [destruct (truthy (s !! k_oauth_state)) eqn:Hstored; simpl|..];
    [destruct (strict_eq (default "" (Callback.state env)) (s !! k_oauth_state))
       eqn:Hmatch; simpl|..];
    [destruct (truthy (s !! k_code_verifier)) eqn:Hverifier; simpl|..].

Lemma strict_eq_true a b : strict_eq a b = true → b = Some a.
Proof. unfold strict_eq. by rewrite bool_decide_eq_true. Qed.

(** X1. A redirect without a usable [code] or [state] (missing or empty)
    ends in [Failed MissingParameter] before the handler has read the
    store, issued a request or written anything. *)
Theorem missing_parameter_stops_first (env : Callback.Env) (s : gmap string string) :
  truthy (Callback.code env) = false ∨ truthy (Callback.state env) = false →
  Callback.outcome env s = Failed MissingParameter ∧
  Callback.final env s
  = mkTab s (Callback.mkVars "Error during authentication"
                             "Missing code or state parameter") [].
Proof.
  intros Hmissing. unfold Callback.outcome, Callback.final. unfold_monad.
  assert (negb (truthy (Callback.code env)) || negb (truthy (Callback.state env))
          = true) as ->.
  { destruct Hmissing as [-> | ->]; [done|]. apply orb_true_r. }
  done.
Qed.

Lemma missing_parameter_stops_first_witness :
  let env := Callback.mkEnv Sample.gitlab "" (Some "abc") (Some "")
               (λ _ _, Ret Sample.tokens) (λ _ _, Ret Sample.alice) in
  truthy (Callback.state env) = false ∧
  Callback.outcome env Sample.pending = Failed MissingParameter ∧
  sessionStorage (Callback.final env Sample.pending) = Sample.pending.
Proof.
  intros env. split; [reflexivity|].
  destruct (missing_parameter_stops_first env Sample.pending
              (or_intror eq_refl)) as [Hout Hfinal].
  split; [exact Hout|]. exact (f_equal sessionStorage Hfinal).
Defined.

(** X2. With matching state but no usable [code_verifier] in the store
    (missing or empty), the run ends in [Failed MissingVerifier]: no
    exchange request is issued and nothing is written. *)
Theorem missing_verifier_stops_before_exchange
    (env : Callback.Env) (s : gmap string string) (code state : string) :
  Callback.code env = Some code → code ≠ "" →
  Callback.state env = Some state → state ≠ "" →
  s !! k_oauth_state = Some state →
  truthy (s !! k_code_verifier) = false →
  Callback.outcome env s = Failed MissingVerifier ∧
  Callback.final env s
  = mkTab s (Callback.mkVars "Error during authentication"
                             "Missing code verifier") [].
Proof.
  intros Hc Hcne Hs Hsne Hstored Hver.
  unfold Callback.outcome, Callback.final. unfold_monad.
  rewrite Hc, Hs, !truthy_Some by done. simpl.
  rewrite Hstored, truthy_Some, strict_eq_refl by done. simpl.
  rewrite Hver. done.
Qed.

Lemma missing_verifier_stops_before_exchange_witness :
  let env := Sample.callback "S" (Ret Sample.tokens) (Ret Sample.alice) in
  let s : gmap string string := <[k_oauth_state := "S"]> ∅ in
  truthy (s !! k_code_verifier) = false ∧
  Callback.outcome env s = Failed MissingVerifier ∧
  log (Callback.final env s) = [].
Proof.
  intros env s. split; [reflexivity|].
  destruct (missing_verifier_stops_before_exchange env s "abc" "S"
              eq_refl ltac:(done) eq_refl ltac:(done) eq_refl eq_refl)
    as [Hout Hfinal].
  split; [exact Hout|]. exact (f_equal log Hfinal).
Defined.

(** X3. In every run the handler issues at most one token-exchange
    request, and it issues one only when code and state are present, the
    stored state is the received one and a verifier is stored; the request
    carries the received code and the stored verifier. *)
Theorem exchange_at_most_once (env : Callback.Env) (s : gmap string string) :
  exchange_requests (log (Callback.final env s)) = [] ∨
  ∃ code state verifier,
    Callback.code env = Some code ∧
    Callback.state env = Some state ∧
    s !! k_oauth_state = Some state ∧
    s !! k_code_verifier = Some verifier ∧
    verifier ≠ "" ∧
    exchange_requests (log (Callback.final env s)) = [(code, verifier)].
Proof.
  callback_guards env s.
  2-6: by left.
  right.
  apply truthy_true in Hcode as (code & Hcode & _).
  apply truthy_true in Hstate as (state & Hstate & _).
  apply truthy_true in Hverifier as (verifier & Hverifier & Hne).
  rewrite Hstate in Hmatch. apply strict_eq_true in Hmatch.
  exists code, state, verifier. rewrite Hcode, Hverifier. simpl.
  repeat (split; [done|]).
  repeat step_env; done.
Qed.

(** X4. The handler writes to the store only after the identity check has
    passed: in every run either the store is exactly what it was and
    nothing was written or removed, or the exchange returned tokens, the
    access token [T] was read from them, the identity request with [T] was
    answered with an ok status and a readable body, and [T] is what is
    stored under [gitlab_access_token]. *)
Theorem store_written_only_after_identity_check
    (env : Callback.Env) (s : gmap string string) :
  (sessionStorage (Callback.final env s) = s ∧
   keys_set (log (Callback.final env s)) = [] ∧
   keys_removed (log (Callback.final env s)) = []) ∨
  ∃ code verifier tokens T userResponse info,
    Callback.code env = Some code ∧
    s !! k_code_verifier = Some verifier ∧
    Callback.validateAuthorizationCode env code verifier = Ret tokens ∧
    accessToken tokens = Ret T ∧
    Callback.fetch env (Callback.GITLAB_URL env +:+ "/api/v4/user") T
      = Ret userResponse ∧
    ok userResponse = true ∧
    json userResponse = Ret info ∧
    sessionStorage (Callback.final env s) !! k_access_token = Some T.
Proof.
  callback_guards env s.
  2-6: by left.
  apply truthy_true in Hcode as (code & Hcode & _).
  apply truthy_true in Hverifier as (verifier & Hverifier & _).
  rewrite Hcode, Hverifier. simpl.
  destruct (Callback.validateAuthorizationCode env code verifier)
    as [tokens|] eqn:Hexchange; simpl; [|by left].
  destruct (accessToken tokens) as [T|] eqn:Haccess; simpl; [|by left].
  destruct (Callback.fetch env (Callback.GITLAB_URL env +:+ "/api/v4/user") T)
    as [userResponse|] eqn:Hfetch; simpl; [|by left].
  destruct (ok userResponse) eqn:Hok; simpl; [|by left].
  destruct (json userResponse) as [info|] eqn:Hjson; simpl; [|by left].
  right. exists code, verifier, tokens, T, userResponse, info.
  repeat (split; [done|]).
  destruct info; repeat step_env; keys; by simplify_map_eq.
Qed.

(** X5. No exception escapes the handler, and the page always shows how
    the run ended.  A [Committed] run shows the success line with no error
    text and schedules the move to the repositories page; a failed run
    shows "Error during authentication" with the message of what was
    thrown, and goes nowhere. *)
Theorem callback_reports_outcome (env : Callback.Env) (s : gmap string string) :
  (Callback.onMount env (fresh s Callback.initial)).1 = Ret tt ∧
  match Callback.outcome env s with
  | Committed =>
      Callback.error (page (Callback.final env s)) = "" ∧
      (∃ username,
         Callback.status (page (Callback.final env s))
         = "Success! Logged in as " +:+ username +:+ ". Redirecting...") ∧
      navigations (log (Callback.final env s)) = [Callback.base env +:+ "/repos"]
  | Failed reason =>
      Callback.status (page (Callback.final env s))
      = "Error during authentication" ∧
      Callback.error (page (Callback.final env s))
      = match Callback.thrown_value reason with
        | JsError message => message
        | JsNonError _ => "An unknown error occurred"
        end ∧
      navigations (log (Callback.final env s)) = []
  end.
Proof.
  callback_guards env s.
  2-6: done.
  repeat step_env; try done.
  all: split; [done|]; split; [done|]; split; [|done]; by eexists.
Qed.

Lemma refresh_accessor_raises_witness :
  let broken := JsError "Missing or invalid 'refresh_token' field" in
  let env := Sample.callback "S" (Ret (mkTokens (Ret "T") (Throw broken)))
               (Ret Sample.alice) in
  refreshToken (mkTokens (Ret "T") (Throw broken)) = Throw broken ∧
  Callback.outcome env Sample.pending = Failed (Foreign broken) ∧
  sessionStorage (Callback.final env Sample.pending)
  = <[k_access_token := "T"]> Sample.pending.
Proof.
  intros broken env. split; [reflexivity|].
  exact (refresh_accessor_raises env Sample.pending "abc" "S"
           eq_refl ltac:(done) eq_refl ltac:(done)
           "V" eq_refl eq_refl ltac:(done)
           (mkTokens (Ret "T") (Throw broken)) "T" eq_refl eq_refl
           broken Sample.alice (JUser "alice") eq_refl eq_refl eq_refl eq_refl).
Defined.

Lemma identity_exception_commits_nothing_witness :
  let env := Sample.callback "S" (Ret Sample.tokens) (Throw Sample.network_down) in
  Callback.fetch env (Callback.GITLAB_URL env +:+ "/api/v4/user") "T"
    = Throw Sample.network_down ∧
  Callback.outcome env Sample.pending = Failed (Foreign Sample.network_down) ∧
  sessionStorage (Callback.final env Sample.pending) = Sample.pending.
Proof.
  intros env. split; [reflexivity|].
  destruct (identity_exception_commits_nothing env Sample.pending "abc" "S"
              eq_refl ltac:(done) eq_refl ltac:(done)
              "V" eq_refl eq_refl ltac:(done) Sample.tokens "T" eq_refl eq_refl
              Sample.network_down eq_refl) as (Hout & Hsame & _).
  exact (conj Hout Hsame).
Defined.

(** ** Startup of the home page, continued *)

Ltac unfold_home :=
  unfold Home.onMount, Home.logout, mbind, mret, M_bind, M_ret, bind, ret,
    throw, try_catch, getItem, setItem, removeItem, emit, eval, modify_page,
    fresh in *.

(** X8. Whatever the provider does, the startup handler returns normally
    with [loading] switched off, writes no key, removes at most the two
    token keys, navigates nowhere, and sends at most one request: the
    identity request with the stored token, and only when that token is
    non-empty.  Without a usable token it does nothing else at all. *)
Theorem startup_frame (env : Home.Env) (s : gmap string string) :
  let run := Home.onMount env (fresh s Home.initial) in
  run.1 = Ret tt ∧
  Home.loading (page run.2) = false ∧
  keys_set (log run.2) = [] ∧
  keys_removed (log run.2) ⊆ [k_access_token; k_refresh_token] ∧
  navigations (log run.2) = [] ∧
  (∀ k, k ≠ k_access_token → k ≠ k_refresh_token →
        sessionStorage run.2 !! k = s !! k) ∧
  (fetches (log run.2) = [] ∨
   ∃ token, s !! k_access_token = Some token ∧ token ≠ "" ∧
            fetches (log run.2)
            = [(Home.GITLAB_URL env +:+ "/api/v4/user", token)]) ∧
  (truthy (s !! k_access_token) = false →
   run.2 = mkTab s (Home.mkVars false None false) []).
Proof.
  intros run. subst run. unfold_home. simpl.
  destruct (truthy (s !! k_access_token)) eqn:Htoken; simpl.
  2: { split_and!; try done; [apply list_subseteq_nil|by left]. }
  apply truthy_true in Htoken as (token & Htoken & Hne).
  rewrite Htoken. simpl.
  destruct (Home.fetch env _ token) as [response|]; simpl;
    [destruct (ok response); simpl; [destruct (json response); simpl|]|].
  all: split_and!; try done; try list_sub.
  all: try (right; by exists token).
  intros k Hk1 Hk2. by rewrite !lookup_delete_ne.
Qed.


(** ** Login initiation, continued *)

(** X10. The login step fails closed.  When a generator raises, the
    exception leaves the function with the tab untouched: nothing stored,
    nothing sent.  When building the URL raises, the parameters are stored
    but the browser stays on the page.  The browser is sent away only by a
    run that returns, and then to the URL that was built, once. *)
Theorem login_fails_closed (env : Home.Env) (t : Tab Home.Vars) :
  let run := Home.loginWithGitLab env t in
  (∀ e, Home.generateState env = Throw e → run = (Throw e, t)) ∧
  (∀ state e, Home.generateState env = Ret state →
              Home.generateCodeVerifier env = Throw e → run = (Throw e, t)) ∧
  (∀ e, run.1 = Throw e → navigations (since t run.2) = []) ∧
  (run.1 = Ret tt →
   ∃ state codeVerifier url,
     Home.createAuthorizationURLWithPKCE env state 0 codeVerifier ["api"] = Ret url ∧
     navigations (since t run.2) = [url] ∧
     sessionStorage run.2
     = <[k_code_verifier := codeVerifier]> (<[k_oauth_state := state]> (sessionStorage t))).
Proof.
  intros run. subst run. rewrite loginWithGitLab_run.
  assert (since t t = []) as Hnone by (unfold since; apply drop_all).
  destruct (Home.generateState env) as [state|]; simpl.
  2: { rewrite Hnone. split_and!; try done; intros; by simplify_eq. }
  destruct (Home.generateCodeVerifier env) as [codeVerifier|]; simpl.
  2: { rewrite Hnone. split_and!; try done; intros; by simplify_eq. }
  destruct (Home.createAuthorizationURLWithPKCE env state 0 codeVerifier ["api"])
    as [url|] eqn:Hurl; simpl; rewrite since_app.
  - split_and!; try done. intros _. by exists state, codeVerifier, url.
  - split_and!; try done.
Qed.

Lemma login_fails_closed_witness :
  let env := Home.mkEnv Sample.gitlab (Throw (JsError "no secure random source"))
               (Ret "V") (λ _ _ _ _, Ret "url") (λ _ _, Ret Sample.alice) in
  let t := fresh Sample.logged_in Home.initial in
  Home.generateState env = Throw (JsError "no secure random source") ∧
  Home.loginWithGitLab env t = (Throw (JsError "no secure random source"), t).
Proof.
  intros env t. split; [reflexivity|].
  exact (proj1 (login_fails_closed env t)
               (JsError "no secure random source") eq_refl).
Defined.

(** ** From login to callback *)

Lemma callback_rejects_state
    (env : Callback.Env) (s : gmap string string) (code state : string) :
  Callback.code env = Some code → code ≠ "" →
  Callback.state env = Some state → state ≠ "" →
  s !! k_oauth_state ≠ Some state →
  Callback.outcome env s = Failed StateMismatch ∧
  Callback.final env s
  = mkTab s (Callback.mkVars "Error during authentication"
               "Invalid state parameter - possible CSRF attack") [].
Proof.
  intros Hc Hcne Hs Hsne Hstored.
  unfold Callback.outcome, Callback.final. unfold_monad.
  rewrite Hc, Hs, !truthy_Some by done. simpl.
  rewrite strict_eq_ne by done. rewrite orb_true_r. done.
Qed.

Lemma callback_commits
    (env : Callback.Env) (s : gmap string string)
    (code state verifier T username : string)
    (tokens : Tokens) (refresh : option string) (userResponse : Response) :
  Callback.code env = Some code → code ≠ "" →
  Callback.state env = Some state → state ≠ "" →
  s !! k_oauth_state = Some state →
  s !! k_code_verifier = Some verifier → verifier ≠ "" →
  Callback.validateAuthorizationCode env code verifier = Ret tokens →
  accessToken tokens = Ret T →
  refreshToken tokens = Ret refresh →
  Callback.fetch env (Callback.GITLAB_URL env +:+ "/api/v4/user") T
    = Ret userResponse →
  ok userResponse = true →
  json userResponse = Ret (JUser username) →
  Callback.outcome env s = Committed ∧
  sessionStorage (Callback.final env s) = committed_store s T refresh ∧
  exchange_requests (log (Callback.final env s)) = [(code, verifier)].
Proof.
  intros Hc Hcne Hs Hsne Hstored Hver Hverne Hex Hacc Href Hfetch Hok Hjson.
  unfold Callback.outcome, Callback.final, committed_store. unfold_monad.
  rewrite Hc, Hs, !truthy_Some by done. simpl.
  rewrite Hstored, truthy_Some, strict_eq_refl by done. simpl.
  rewrite Hver, truthy_Some by done. simpl.
  rewrite Hex. simpl. rewrite Hacc. simpl. rewrite Hfetch. simpl.
  rewrite Hok. simpl. rewrite Hjson. simpl. rewrite Href. simpl.
  destruct (truthy refresh); simpl;
    (destruct (Callback.fetch env (Callback.GITLAB_URL env +:+ "/oauth/token/info") T)
       as [info|]; simpl;
     [destruct (ok info); simpl; [destruct (json info); simpl|]|]); done.
Qed.

Section LoginRoundTrip.

Variable henv : Home.Env.
Variable cenv : Callback.Env.
Variable t : Tab Home.Vars.
Variables state verifier url code : string.

(** The login step ran through and stored non-empty parameters. *)
Hypothesis Hstate : Home.generateState henv = Ret state.
Hypothesis Hverifier : Home.generateCodeVerifier henv = Ret verifier.
Hypothesis Hurl :
  Home.createAuthorizationURLWithPKCE henv state 0 verifier ["api"] = Ret url.
Hypothesis Hstate_ne : state ≠ "".
Hypothesis Hverifier_ne : verifier ≠ "".

(** The redirect that comes back carries a code. *)
Hypothesis Hcode : Callback.code cenv = Some code.
Hypothesis Hcode_ne : code ≠ "".

Lemma login_store :
  sessionStorage (Home.loginWithGitLab henv t).2
  = <[k_code_verifier := verifier]> (<[k_oauth_state := state]> (sessionStorage t)).
Proof. rewrite loginWithGitLab_run, Hstate, Hverifier. simpl. by rewrite Hurl. Qed.

(** X11. Login, redirect, callback, next page load.  After a login step
    that stored [state] and [verifier], a redirect echoing [state], with a
    provider that exchanges the code for tokens whose [accessToken()]
    gives [T] and whose [refreshToken()] returns (the response carries a
    refresh token too) and that confirms the identity with a user record,
    ends [Committed] after one exchange request carrying the stored
    verifier; the store then holds [T], no flow parameter, and every key
    outside the login flow as it was before the login.  If [T] is not
    empty, a home page loaded on that store and a provider that accepts [T]
    shows the user as logged in.  A response without refresh token, for
    which the accessor raises, is not covered here. *)
Theorem login_round_trip
    (tokens : Tokens) (T username : string) (refresh : option string)
    (userResponse : Response) :
  Callback.state cenv = Some state →
  Callback.validateAuthorizationCode cenv code verifier = Ret tokens →
  accessToken tokens = Ret T →
  refreshToken tokens = Ret refresh →
  Callback.fetch cenv (Callback.GITLAB_URL cenv +:+ "/api/v4/user") T
    = Ret userResponse →
  ok userResponse = true →
  json userResponse = Ret (JUser username) →
  let s1 := sessionStorage (Home.loginWithGitLab henv t).2 in
  let s2 := sessionStorage (Callback.final cenv s1) in
  Callback.outcome cenv s1 = Committed ∧
  exchange_requests (log (Callback.final cenv s1)) = [(code, verifier)] ∧
  read s2 = Some T ∧
  s2 !! k_oauth_state = None ∧
  s2 !! k_code_verifier = None ∧
  (∀ k, k ∉ layout → s2 !! k = sessionStorage t !! k) ∧
  (T ≠ "" →
   ∀ (henv' : Home.Env) (response : Response) (info : UserJson),
     Home.fetch henv' (Home.GITLAB_URL henv' +:+ "/api/v4/user") T = Ret response →
     ok response = true →
     json response = Ret info →
     Home.isLoggedIn (page (Home.onMount henv' (fresh s2 Home.initial)).2) = true).
Proof.
  intros Hecho Hex Hacc Href Hfetch Hok Hjson s1 s2. subst s1 s2.
  rewrite login_store.
  destruct (callback_commits cenv
              (<[k_code_verifier := verifier]>
                 (<[k_oauth_state := state]> (sessionStorage t)))
              code state verifier T username tokens refresh userResponse)
    as (Hout & Hstore & Hreq); try done.
  { keys. by simplify_map_eq. }
  { keys. by simplify_map_eq. }
  rewrite Hstore. unfold committed_store, read.
  split_and!; try done.
  - keys. destruct (truthy refresh); by simplify_map_eq.
  - keys. by simplify_map_eq.
  - keys. by simplify_map_eq.
  - intros k Hk. unfold layout in Hk. keys.
    rewrite !not_elem_of_cons in Hk. destruct Hk as (? & ? & ? & ? & _).
    destruct (truthy refresh); by simplify_map_eq.
  - intros HT henv' response info Hf Ho Hj. unfold_home. simpl.
    assert (∀ m : gmap string string,
              delete k_code_verifier (delete k_oauth_state m) !! k_access_token
              = m !! k_access_token) as Hskip.
    { intros m. keys. by simplify_map_eq. }
    rewrite Hskip.
    assert ((if truthy refresh
             then <[k_refresh_token := default "" refresh]>
                    (<[k_access_token := T]>
                       (<[k_code_verifier := verifier]>
                          (<[k_oauth_state := state]> (sessionStorage t))))
             else <[k_access_token := T]>
                    (<[k_code_verifier := verifier]>
                       (<[k_oauth_state := state]> (sessionStorage t))))
            !! k_access_token = Some T) as ->.
    { keys. destruct (truthy refresh); by simplify_map_eq. }
    rewrite truthy_Some by done. simpl. rewrite Hf. simpl. rewrite Ho. simpl.
    rewrite Hj. done.
Qed.

(** X12. A redirect that carries another state than the one of the pending
    login (one prepared by somebody else, or the answer to an earlier
    attempt this login has replaced) is rejected with [StateMismatch]
    without any request, and the pending login survives it: the store is
    still the one the login left, so the redirect that echoes [state] is
    still accepted afterwards. *)
Theorem foreign_redirect_rejected (other : string) :
  Callback.state cenv = Some other → other ≠ "" → other ≠ state →
  let s1 := sessionStorage (Home.loginWithGitLab henv t).2 in
  Callback.outcome cenv s1 = Failed StateMismatch ∧
  log (Callback.final cenv s1) = [] ∧
  sessionStorage (Callback.final cenv s1) = s1 ∧
  s1 !! k_oauth_state = Some state ∧
  s1 !! k_code_verifier = Some verifier.
Proof.
  intros Hother Hne Hdiff s1. subst s1. rewrite login_store.
  destruct (callback_rejects_state cenv
              (<[k_code_verifier := verifier]>
                 (<[k_oauth_state := state]> (sessionStorage t)))
              code other) as [Hout Hfinal]; try done.
  { keys. simplify_map_eq. congruence. }
  rewrite Hfinal. simpl. split_and!; try done; keys; by simplify_map_eq.
Qed.

End LoginRoundTrip.

Lemma login_round_trip_witness :
  let henv := Sample.home (Ret Sample.alice) in
  let cenv := Sample.callback "S" (Ret Sample.tokens) (Ret Sample.alice) in
  let s1 := sessionStorage (Home.loginWithGitLab henv (fresh ∅ Home.initial)).2 in
  let s2 := sessionStorage (Callback.final cenv s1) in
  Home.generateState henv = Ret "S" ∧
  Callback.outcome cenv s1 = Committed ∧
  read s2 = Some "T" ∧
  Home.isLoggedIn (page (Home.onMount henv (fresh s2 Home.initial)).2) = true.
Proof.
  intros henv cenv s1 s2. split; [reflexivity|].
  destruct (login_round_trip henv cenv (fresh ∅ Home.initial)
              "S" "V" "https://gitlab.com/oauth/authorize?state=S" "abc"
              eq_refl eq_refl eq_refl ltac:(done) ltac:(done) eq_refl ltac:(done)
              Sample.tokens "T" "alice" (Some "R") Sample.alice
              eq_refl eq_refl eq_refl eq_refl eq_refl eq_refl eq_refl)
    as (Hout & _ & Hread & _ & _ & _ & Hnext).
  split; [exact Hout|]. split; [exact Hread|].
  exact (Hnext ltac:(done) henv Sample.alice (JUser "alice")
               eq_refl eq_refl eq_refl).
Defined.

Lemma foreign_redirect_rejected_witness :
  let henv := Sample.home (Ret Sample.alice) in
  let cenv := Sample.callback "forged" (Ret Sample.tokens) (Ret Sample.alice) in
  let s1 := sessionStorage (Home.loginWithGitLab henv (fresh ∅ Home.initial)).2 in
  Callback.state cenv = Some "forged" ∧
  Callback.outcome cenv s1 = Failed StateMismatch ∧
  sessionStorage (Callback.final cenv s1) = s1.
Proof.
  intros henv cenv s1. split; [reflexivity|].
  destruct (foreign_redirect_rejected henv cenv (fresh ∅ Home.initial)
              "S" "V" "https://gitlab.com/oauth/authorize?state=S" "abc"
              eq_refl eq_refl eq_refl eq_refl ltac:(done)
              "forged" eq_refl ltac:(done) ltac:(done))
    as (Hout & _ & Hsame & _).
  exact (conj Hout Hsame).
Defined.

(** X13. A logout ends a pending login: on the store any of the four
    logouts leaves behind, a redirect with code and state, whatever they
    are, is rejected with [StateMismatch] before any request is made. *)
Theorem logout_cancels_pending_login
    (env : Callback.Env) (code state : string) :
  Callback.code env = Some code → code ≠ "" →
  Callback.state env = Some state → state ≠ "" →
  (∀ t : Tab Home.Vars,
     Callback.outcome env (sessionStorage (Home.logout t).2)
     = Failed StateMismatch ∧
     log (Callback.final env (sessionStorage (Home.logout t).2)) = []) ∧
  (∀ (P : Type) (base : string) (t : Tab P),
     Forall (λ logout : M P JsExn unit,
               Callback.outcome env (sessionStorage (logout t).2)
               = Failed StateMismatch ∧
               log (Callback.final env (sessionStorage (logout t).2)) = [])
            [Repos.logout base; Dashboard.logout base; Callback.logout base]).
Proof.
  intros Hc Hcne Hs Hsne.
  assert (∀ s : gmap string string,
            s !! k_oauth_state = None →
            Callback.outcome env s = Failed StateMismatch ∧
            log (Callback.final env s) = []) as Hrejected.
  { intros s Hnone.
    destruct (callback_rejects_state env s code state) as [Hout Hfinal];
      try done; [congruence|].
    by rewrite Hfinal. }
  split.
  - intros t. apply Hrejected. rewrite (proj2 (home_logout_run t)).
    keys. by simplify_map_eq.
  - intros P base t. repeat constructor; apply Hrejected; simpl;
      keys; by simplify_map_eq.
Qed.

Lemma logout_cancels_pending_login_witness :
  let env := Sample.callback "S" (Ret Sample.tokens) (Ret Sample.alice) in
  Callback.state env = Some "S" ∧
  Callback.outcome env
    (sessionStorage (Home.logout (fresh Sample.pending Home.initial)).2)
  = Failed StateMismatch.
Proof.
  intros env. split; [reflexivity|].
  exact (proj1 (proj1 (logout_cancels_pending_login env "abc" "S"
                         eq_refl ltac:(done) eq_refl ltac:(done))
                      (fresh Sample.pending Home.initial))).
Defined.

(** ** The repositories page *)

Ltac unfold_repos :=
  unfold Repos.onMount, Repos.handleRepoSelect, Repos.selectRepo,
    mbind, mret, M_bind, M_ret, bind, ret, throw, try_catch, getItem,
    setItem, removeItem, emit, eval, modify_page, fresh in *.

(** X14. The repositories page never changes the store when it loads.
    Without a usable token it sends the browser to the home page, asks the
    provider nothing and stays in its loading state.  With one it sends
    exactly one request, the project list with that token, stays on the
    page and leaves the loading state; the list it shows is the body of an
    ok answer, and empty after a failure status or an exception. *)
Theorem repos_page_guard (env : Repos.Env) (s : gmap string string) :
  let run := Repos.onMount env (fresh s Repos.initial) in
  run.1 = Ret tt ∧
  sessionStorage run.2 = s ∧
  (truthy (s !! k_access_token) = false →
     log run.2 = [EvGoto (Repos.base env +:+ "/")] ∧
     Repos.loading (page run.2) = true ∧
     Repos.repositories (page run.2) = []) ∧
  (∀ token, s !! k_access_token = Some token → token ≠ "" →
     log run.2 = [EvFetch (Repos.projects_url env) token] ∧
     Repos.loading (page run.2) = false ∧
     Repos.repositories (page run.2)
     = match Repos.fetch_projects env (Repos.projects_url env) token with
       | Ret response =>
           if reply_ok response
           then match reply_json response with Ret body => body | Throw _ => [] end
           else []
       | Throw _ => []
       end).
Proof.
  intros run. subst run. unfold_repos. simpl.
  destruct (truthy (s !! k_access_token)) eqn:Htoken; simpl.
  - apply truthy_true in Htoken as (token & Htoken & Hne). rewrite Htoken. simpl.
    destruct (Repos.fetch_projects env (Repos.projects_url env) token)
      as [response|] eqn:Hfetch; simpl;
      [destruct (reply_ok response) eqn:Hok; simpl;
         [destruct (reply_json response) eqn:Hjson; simpl|]|].
    all: split_and!; try done.
    all: intros ? [= <-] _; rewrite Hfetch, ?Hok, ?Hjson; done.
  - split_and!; try done. intros token Hs Hne.
    by rewrite Hs, truthy_Some in Htoken.
Qed.

(** *** Splitting names *)

Lemma split_cons (sep : Ascii.ascii) (s : string) :
  ∃ segment rest, split sep s = segment :: rest.
Proof.
  induction s as [|c s (segment & rest & IH)]; simpl; [by eexists _, _|].
  destruct (decide (c = sep)); [by eexists _, _|].
  rewrite IH. by eexists _, _.
Qed.

(** Splitting distributes over a separator. *)
Lemma split_app (sep : Ascii.ascii) (a b : string) :
  split sep (a +:+ String sep b) = split sep a ++ split sep b.
Proof.
  induction a as [|c a IH]; simpl.
  - by rewrite decide_True.
  - destruct (decide (c = sep)); [by rewrite IH|].
    rewrite IH. by destruct (split_cons sep a) as (segment & rest & ->).
Qed.

Lemma split_none (sep : Ascii.ascii) (s : string) :
  sep ∉ String.list_ascii_of_string s → split sep s = [s].
Proof.
  induction s as [|c s IH]; simpl; [done|].
  rewrite not_elem_of_cons. intros [Hne Hrest].
  rewrite decide_False by done. by rewrite IH.
Qed.

Lemma lower_dot (c : Ascii.ascii) : lower c = dot ↔ c = dot.
Proof.
  destruct c as [[] [] [] [] [] [] [] []]; vm_compute; split; congruence.
Qed.

Lemma lower_lower (c : Ascii.ascii) : lower (lower c) = lower c.
Proof. destruct c as [[] [] [] [] [] [] [] []]; vm_compute; reflexivity. Qed.

Lemma toLowerCase_idemp (s : string) : toLowerCase (toLowerCase s) = toLowerCase s.
Proof. induction s as [|c s IH]; simpl; [done|]. by rewrite lower_lower, IH. Qed.

Lemma split_toLowerCase (s : string) :
  split dot (toLowerCase s) = toLowerCase <$> split dot s.
Proof.
  induction s as [|c s IH]; simpl; [done|].
  destruct (decide (c = dot)) as [->|Hne].
  - rewrite decide_True by done. simpl. by rewrite IH.
  - rewrite decide_False by (by rewrite lower_dot). rewrite IH.
    by destruct (split_cons dot s) as (segment & rest & ->).
Qed.

Lemma extension_app (stem ext : string) :
  dot ∉ String.list_ascii_of_string ext →
  last (split dot (stem +:+ String dot ext)) = Some ext.
Proof.
  intros Hext. rewrite split_app, (split_none dot ext) by done. apply last_snoc.
Qed.

Lemma extension_toLowerCase (name : string) :
  toLowerCase <$> last (split dot (toLowerCase name))
  = toLowerCase <$> last (split dot name).
Proof.
  rewrite split_toLowerCase.
  destruct (split_cons dot name) as (segment & rest & ->).
  generalize (segment :: rest). intros l.
  induction l as [|x [|y l] IH]; simpl; [done|by rewrite toLowerCase_idemp|].
  apply IH.
Qed.

(** X15. The icon of an entry: a directory gets the folder whatever it is
    called; for anything else only the text after the last dot counts (a
    name without a dot counts as a whole, so a file called [js] is shown
    as a script), and upper and lower case make no difference. *)
Theorem file_icon_by_extension :
  (∀ name, Repos.getFileIcon "tree" name = "📁") ∧
  (∀ type stem ext,
     dot ∉ String.list_ascii_of_string ext →
     Repos.getFileIcon type (stem +:+ String dot ext) = Repos.getFileIcon type ext) ∧
  (∀ type name,
     Repos.getFileIcon type (toLowerCase name) = Repos.getFileIcon type name).
Proof.
  split; [done|]. split.
  - intros type stem ext Hext. unfold Repos.getFileIcon.
    by rewrite extension_app, (split_none dot ext) by done.
  - intros type name. unfold Repos.getFileIcon.
    by rewrite extension_toLowerCase.
Qed.

Lemma file_icon_by_extension_witness :
  (dot ∉ String.list_ascii_of_string "JS") ∧
  Repos.getFileIcon "blob" "archive.tar.JS" = "📜" ∧
  Repos.getFileIcon "blob" "js" = "📜" ∧
  Repos.getFileIcon "blob" "Makefile" = "📄".
Proof.
  assert (dot ∉ String.list_ascii_of_string "JS") as Hext.
  { simpl. rewrite !not_elem_of_cons. split_and!; try done. apply not_elem_of_nil. }
  split; [exact Hext|]. split; [|split; reflexivity].
  exact (eq_trans (proj1 (proj2 file_icon_by_extension) "blob" "archive.tar" "JS" Hext)
                  eq_refl).
Defined.

Lemma find_repo_Some (id : string) (l : list RepoJson) (r : RepoJson) :
  Repos.find_repo id l = Ret (Some r) →
  ∃ before after,
    l = before ++ r :: after ∧
    repo_id_toString r = Ret id ∧
    Forall (λ r', ∃ i, repo_id_toString r' = Ret i ∧ i ≠ id) before.
Proof.
  induction l as [|r' l IH]; simpl; [done|].
  destruct (repo_id_toString r') as [i|] eqn:Hid; [|done].
  destruct (decide (i = id)) as [->|Hne].
  - intros [= <-]. by exists [], l.
  - intros (before & after & -> & Hr & Hall)%IH.
    exists (r' :: before), after. split_and!; try done.
    constructor; [by exists i|done].
Qed.

Lemma find_repo_None (id : string) (l : list RepoJson) :
  Repos.find_repo id l = Ret None →
  Forall (λ r', ∃ i, repo_id_toString r' = Ret i ∧ i ≠ id) l.
Proof.
  induction l as [|r' l IH]; simpl; [done|].
  destruct (repo_id_toString r') as [i|] eqn:Hid; [|done].
  destruct (decide (i = id)) as [->|Hne]; [done|].
  intros Hrest. constructor; [by exists i|by apply IH].
Qed.

(** X16. Choosing a project.  Without a chosen id or without a token the
    handler does nothing.  Otherwise, if the search through the list raises
    (a project without id before any match), the exception leaves the
    handler and the page is as before.  Otherwise the page shows the first
    project of the list whose id reads as the chosen one (none if no id
    does), exactly one request for its file tree has gone out with the
    token, the store is untouched, the loading flag is off again, and the
    tree shown is the body of an ok answer, and empty in every other case. *)
Theorem choosing_a_project (env : Repos.Env) (t : Tab Repos.Vars) :
  let v := page t in
  let run := Repos.handleRepoSelect env t in
  (Repos.selectedRepoId v = "" ∨ truthy (Repos.accessToken v) = false →
     run = (Ret tt, t)) ∧
  (∀ token, Repos.selectedRepoId v ≠ "" →
     Repos.accessToken v = Some token → token ≠ "" →
     match Repos.find_repo (Repos.selectedRepoId v) (Repos.repositories v) with
     | Throw e => run = (Throw e, t)
     | Ret found =>
         run.1 = Ret tt ∧
         sessionStorage run.2 = sessionStorage t ∧
         since t run.2
         = [EvFetch (Repos.tree_url env (Repos.selectedRepoId v)) token] ∧
         Repos.selectedRepo (page run.2) = found ∧
         (∀ r, found = Some r →
               ∃ before after,
                 Repos.repositories v = before ++ r :: after ∧
                 repo_id_toString r = Ret (Repos.selectedRepoId v) ∧
                 Forall (λ r', ∃ i, repo_id_toString r' = Ret i
                                    ∧ i ≠ Repos.selectedRepoId v) before) ∧
         (found = None →
          Forall (λ r', ∃ i, repo_id_toString r' = Ret i
                             ∧ i ≠ Repos.selectedRepoId v) (Repos.repositories v)) ∧
         Repos.loadingFiles (page run.2) = false ∧
         Repos.fileTree (page run.2)
         = match Repos.fetch_tree env
                   (Repos.tree_url env (Repos.selectedRepoId v)) token with
           | Ret response =>
               if reply_ok response
               then match reply_json response with
                    | Ret body => body
                    | Throw _ => []
                    end
               else []
           | Throw _ => []
           end
     end).
Proof.
  intros v run. subst v run. split.
  - intros Hguard. unfold_repos.
    assert (negb (truthy (Some (Repos.selectedRepoId (page t))))
            || negb (truthy (Repos.accessToken (page t))) = true) as ->; [|done].
    destruct Hguard as [-> | ->]; [done|apply orb_true_r].
  - intros token Hid Htoken Hne. unfold_repos.
    rewrite Htoken, !truthy_Some by done. simpl.
    destruct (Repos.find_repo _ _) as [found|] eqn:Hfound; simpl; [|by destruct t].
    destruct (Repos.fetch_tree env _ token) as [response|] eqn:Hfetch; simpl;
      [destruct (reply_ok response) eqn:Hok; simpl;
         [destruct (reply_json response) eqn:Hjson; simpl|]|].
    all: rewrite since_app.
    all: split_and!; try done.
    all: try (intros r ->; by apply find_repo_Some).
    all: intros ->; by apply find_repo_None.
Qed.

Lemma choosing_a_project_witness :
  let v := Repos.mkVars (Some "T") false
             [Sample.project_without_id; Sample.project] "42" None [] false in
  let t := mkTab Sample.logged_in v [] in
  Repos.accessToken v = Some "T" ∧
  Repos.handleRepoSelect (Sample.repos (Throw Sample.network_down)) t
  = (Throw (JsError "r.id is undefined"), t).
Proof.
  intros v t. split; [reflexivity|].
  exact (proj2 (choosing_a_project (Sample.repos (Throw Sample.network_down)) t)
               "T" ltac:(done) eq_refl ltac:(done)).
Defined.

Lemma repos_page_guard_witness :
  let env := Sample.repos (Ret (mkReply true "200" (Ret [Sample.project]))) in
  let run := Repos.onMount env (fresh Sample.logged_in Repos.initial) in
  Sample.logged_in !! k_access_token = Some "T" ∧
  Repos.repositories (page run.2) = [Sample.project] ∧
  Repos.loading (page run.2) = false.
Proof.
  intros env run. split; [reflexivity|].
  destruct (proj2 (proj2 (proj2 (repos_page_guard env Sample.logged_in)))
              "T" eq_refl ltac:(done)) as (_ & Hloading & Hlist).
  exact (conj Hlist Hloading).
Defined.

(** ** The dashboard *)

Ltac unfold_dashboard :=
  unfold Dashboard.onMount, mbind, mret, M_bind, M_ret, bind, ret, throw,
    try_catch, getItem, setItem, removeItem, emit, eval, modify_page, fresh in *.

(** X17. The dashboard looks at [selected_repo] and at nothing else.
    Without a usable entry it sends the browser to the repositories page
    and stays in its loading state.  With one it hands the text to
    [JSON.parse]: the value is shown and the loading state left, or, if the
    text does not parse, the exception leaves the handler with the page
    still loading.  The token is never read, so the page opens whether or
    not a credential is stored; the store is never changed. *)
Theorem dashboard_guard (env : Dashboard.Env) (s : gmap string string) :
  let run := Dashboard.onMount env (fresh s Dashboard.initial) in
  (truthy (s !! k_selected_repo) = false →
     run = (Ret tt, mkTab s (Dashboard.mkVars None true)
                          [EvGoto (Dashboard.base env +:+ "/repos")])) ∧
  (∀ text, s !! k_selected_repo = Some text → text ≠ "" →
     run = match Dashboard.JSON_parse env text with
           | Ret parsed => (Ret tt, mkTab s (Dashboard.mkVars parsed false) [])
           | Throw e => (Throw e, mkTab s (Dashboard.mkVars None true) [])
           end).
Proof.
  intros run. subst run. unfold_dashboard. simpl. split.
  - by intros ->.
  - intros text Hs Hne. rewrite Hs, truthy_Some by done. simpl.
    by destruct (Dashboard.JSON_parse env text).
Qed.

Lemma dashboard_guard_witness :
  let s : gmap string string := <[k_selected_repo := repo_stringify Sample.project]> ∅ in
  s !! k_access_token = None ∧
  Dashboard.onMount Sample.dashboard (fresh s Dashboard.initial)
  = (Ret tt, mkTab s (Dashboard.mkVars (Some Sample.project) false) []).
Proof.
  intros s. split; [reflexivity|].
  exact (proj2 (dashboard_guard Sample.dashboard s)
               (repo_stringify Sample.project) eq_refl ltac:(done)).
Defined.

(** X18. Selecting a project.  When the page has no chosen project the
    button does nothing.  Otherwise it writes the project's JSON text under
    [selected_repo], touches no other key, and goes to the dashboard; and a
    dashboard loaded on that store, with a [JSON.parse] that reads the text
    back, shows that project. *)
Theorem select_then_dashboard
    (renv : Repos.Env) (denv : Dashboard.Env) (t : Tab Repos.Vars) :
  (repo_present (Repos.selectedRepo (page t)) = false →
     Repos.selectRepo renv t = (Ret tt, t)) ∧
  (∀ r, Repos.selectedRepo (page t) = Some r → repo_truthy r = true →
     let t1 := (Repos.selectRepo renv t).2 in
     since t t1 = [EvSetItem k_selected_repo (repo_stringify r);
                   EvGoto (Repos.base renv +:+ "/dashboard")] ∧
     sessionStorage t1
     = <[k_selected_repo := repo_stringify r]> (sessionStorage t) ∧
     (repo_stringify r ≠ "" →
      Dashboard.JSON_parse denv (repo_stringify r) = Ret (Some r) →
      Dashboard.onMount denv (fresh (sessionStorage t1) Dashboard.initial)
      = (Ret tt, mkTab (sessionStorage t1) (Dashboard.mkVars (Some r) false) []))).
Proof.
  split.
  - intros Hnone. unfold_repos. rewrite Hnone. simpl. by destruct t.
  - intros r Hr Htruthy t1. subst t1. unfold_repos. rewrite Hr. simpl.
    rewrite Htruthy. simpl. rewrite <- app_assoc, since_app.
    split_and!; try done.
    intros Hne Hparse. unfold_dashboard. simpl.
    unfold k_selected_repo. rewrite lookup_insert_eq, truthy_Some by done.
    simpl. by rewrite Hparse.
Qed.

Lemma select_then_dashboard_witness :
  let v := Repos.mkVars (Some "T") false [Sample.project] "42"
             (Some Sample.project) [] false in
  let t := mkTab Sample.logged_in v [] in
  let t1 := (Repos.selectRepo (Sample.repos (Throw Sample.network_down)) t).2 in
  Repos.selectedRepo v = Some Sample.project ∧
  Dashboard.selectedRepo
    (page (Dashboard.onMount Sample.dashboard
             (fresh (sessionStorage t1) Dashboard.initial)).2)
  = Some Sample.project.
Proof.
  intros v t t1. split; [reflexivity|].
  destruct (proj2 (select_then_dashboard (Sample.repos (Throw Sample.network_down))
                     Sample.dashboard t) Sample.project eq_refl eq_refl)
    as (_ & _ & Hshow).
  exact (f_equal (λ run, Dashboard.selectedRepo (page run.2))
                 (Hshow ltac:(done) eq_refl)).
Defined.

(** ** The new-post page: the list of images *)

Ltac unfold_newpost :=
  unfold NewPost.onMount, NewPost.fetchPureYml, NewPost.handleFileSelect,
    NewPost.removeImage, NewPost.handleDone, NewPost.handleDone_try,
    NewPost.handleDone_catch, NewPost.cancel, NewPost.raised,
    NewPost.type_error, NewPost.get_page,
    mbind, mret, M_bind, M_ret, bind, ret, throw, try_catch, getItem,
    setItem, removeItem, emit, eval, modify_page, fresh in *.

Lemma accepted_files (files : list NewPost.Picked) :
  NewPost.file <$> NewPost.accepted files
  = List.filter (λ f, String.prefix "image/" (NewPost.type f))
                (NewPost.picked <$> files).
Proof.
  unfold NewPost.accepted.
  induction files as [|p files IH]; [done|]. cbn.
  destruct (String.prefix "image/" (NewPost.type (NewPost.picked p))); cbn;
    by rewrite <- IH.
Qed.

Lemma accepted_fresh (files : list NewPost.Picked) :
  Forall (λ img, NewPost.caption img = "" ∧
                 ∃ p, p ∈ files ∧ NewPost.file img = NewPost.picked p ∧
                      NewPost.id img = NewPost.uuid p ∧
                      NewPost.preview img = NewPost.objectURL p)
         (NewPost.accepted files).
Proof.
  unfold NewPost.accepted.
  induction files as [|p files IH]; [constructor|]. cbn.
  assert (Forall (λ img, NewPost.caption img = "" ∧
                 ∃ q, q ∈ p :: files ∧ NewPost.file img = NewPost.picked q ∧
                      NewPost.id img = NewPost.uuid q ∧
                      NewPost.preview img = NewPost.objectURL q)
                 (omap (λ p, if String.prefix "image/" (NewPost.type (NewPost.picked p))
                             then Some (NewPost.mkImage (NewPost.uuid p)
                                          (NewPost.picked p) (NewPost.objectURL p) "")
                             else None) files)) as IH'.
  { eapply Forall_impl; [exact IH|]. intros img (Hc & q & Hq & Hrest).
    split; [done|]. exists q. split; [by apply elem_of_cons; right|done]. }
  destruct (String.prefix "image/" (NewPost.type (NewPost.picked p))); [|done].
  constructor; [|done]. split; [done|]. exists p.
  split; [apply elem_of_cons; by left|done].
Qed.

(** X19. Picking files.  The handler keeps the images that are already
    there, in their order, and appends one image for every picked file
    whose type starts with [image/], in the order of the input; files of
    any other type are dropped without a word.  A new image starts with an
    empty caption and carries the id and the preview URL the browser made
    for its file.  Nothing else on the page changes, and no files at all
    (a [null] list) changes nothing. *)
Theorem picking_files (files : option (list NewPost.Picked)) (t : Tab NewPost.Vars) :
  let run := NewPost.handleFileSelect files t in
  ∃ added,
    run = (Ret tt, mkTab (sessionStorage t)
                         (NewPost.set_images (NewPost.images (page t) ++ added)
                                             (page t))
                         (log t)) ∧
    NewPost.file <$> added
    = List.filter (λ f, String.prefix "image/" (NewPost.type f))
                  (NewPost.picked <$> default [] files) ∧
    Forall (λ img, NewPost.caption img = "" ∧
                   ∃ p, p ∈ default [] files ∧
                        NewPost.file img = NewPost.picked p ∧
                        NewPost.id img = NewPost.uuid p ∧
                        NewPost.preview img = NewPost.objectURL p) added.
Proof.
  intros run. subst run. destruct files as [files|]; simpl.
  - exists (NewPost.accepted files). split; [done|].
    split; [apply accepted_files|apply accepted_fresh].
  - exists []. rewrite app_nil_r. split; [by destruct t as [? [] ?]|done].
Qed.

Lemma find_id_none (i : string) (l : list NewPost.ImageUpload) :
  Forall (λ img, NewPost.id img ≠ i) l →
  List.find (λ img, bool_decide (NewPost.id img = i)) l = None ∧
  List.filter (λ img, bool_decide (NewPost.id img ≠ i)) l = l.
Proof.
  induction 1 as [|img l Hne _ [IH1 IH2]]; simpl; [done|].
  rewrite bool_decide_eq_false_2, bool_decide_eq_true_2 by done.
  by rewrite IH1, IH2.
Qed.

Lemma find_id_unique (i : string) (l : list NewPost.ImageUpload)
    (img : NewPost.ImageUpload) :
  NoDup (NewPost.id <$> l) → img ∈ l → NewPost.id img = i →
  List.find (λ img, bool_decide (NewPost.id img = i)) l = Some img ∧
  length (List.filter (λ img, bool_decide (NewPost.id img ≠ i)) l) + 1 = length l.
Proof.
  induction l as [|x l IH]; simpl; [by intros _ ?%elem_of_nil|].
  rewrite NoDup_cons. intros [Hx Hnodup] Hin Hid.
  apply elem_of_cons in Hin as [->|Hin].
  - rewrite bool_decide_eq_true_2 by done.
    rewrite bool_decide_eq_false_2 by (intros Hne; by apply Hne).
    split; [done|].
    destruct (find_id_none i l) as [_ ->]; [|lia].
    apply Forall_forall. intros y Hy Heq. apply Hx.
    rewrite Hid, <- Heq. by apply list_elem_of_fmap_2.
  - assert (NewPost.id x ≠ i) as Hne.
    { intros Heq. apply Hx. rewrite Heq, <- Hid. by apply list_elem_of_fmap_2. }
    rewrite bool_decide_eq_false_2, bool_decide_eq_true_2 by done. simpl.
    destruct (IH Hnodup Hin Hid) as [-> Hlen]. split; [done|lia].
Qed.

(** X20. Removing an image.  Afterwards no image of the list has the given
    id, and the images with another id are all still there, in their
    order.  When the ids of the list are distinct, exactly one image goes
    and its preview URL is the one that is revoked; for an id that is not
    in the list nothing is removed and nothing revoked. *)
Theorem removing_an_image (i : string) (t : Tab NewPost.Vars) :
  let run := NewPost.removeImage i t in
  let before := NewPost.images (page t) in
  let after := NewPost.images (page run.2) in
  run.1 = Ret tt ∧
  sessionStorage run.2 = sessionStorage t ∧
  log run.2 = log t ∧
  Forall (λ img, NewPost.id img ≠ i) after ∧
  (∀ img, img ∈ after ↔ img ∈ before ∧ NewPost.id img ≠ i) ∧
  sublist after before ∧
  (Forall (λ img, NewPost.id img ≠ i) before → run.2 = t) ∧
  (∀ img, NoDup (NewPost.id <$> before) → img ∈ before → NewPost.id img = i →
     NewPost.revoked (page run.2)
     = NewPost.revoked (page t) ++ [NewPost.preview img] ∧
     length after + 1 = length before).
Proof.
  intros run before after. subst run before after. unfold_newpost.
  assert (∀ l : list NewPost.ImageUpload,
            Forall (λ img, NewPost.id img ≠ i)
                   (List.filter (λ img, bool_decide (NewPost.id img ≠ i)) l) ∧
            (∀ img, img ∈ List.filter (λ img, bool_decide (NewPost.id img ≠ i)) l
                    ↔ img ∈ l ∧ NewPost.id img ≠ i) ∧
            sublist (List.filter (λ img, bool_decide (NewPost.id img ≠ i)) l) l)
    as Hfilter.
  { intros l. split_and!.
    - apply Forall_forall. intros img Hin.
      apply list_elem_of_In, filter_In in Hin as [_ Hne].
      by apply bool_decide_eq_true in Hne.
    - intros img. rewrite !list_elem_of_In, filter_In, bool_decide_eq_true. done.
    - induction l as [|x l IH]; simpl; [done|].
      destruct (bool_decide (NewPost.id x ≠ i)); by constructor. }
  destruct (List.find _ (NewPost.images (page t))) as [image|] eqn:Hfind; simpl.
  - destruct (Hfilter (NewPost.images (page t))) as (H1 & H2 & H3).
    split_and!; try done.
    + intros Hnone. apply find_id_none in Hnone as [Hnone _]. congruence.
    + intros img Hnodup Hin Hid.
      destruct (find_id_unique i _ img Hnodup Hin Hid) as [Hsome Hlen].
      rewrite Hsome in Hfind. by simplify_eq.
  - destruct (Hfilter (NewPost.images (page t))) as (H1 & H2 & H3).
    split_and!; try done.
    + intros Hnone. apply find_id_none in Hnone as [_ ->].
      by destruct t as [? [] ?].
    + intros img Hnodup Hin Hid.
      destruct (find_id_unique i _ img Hnodup Hin Hid) as [Hsome Hlen].
      congruence.
Qed.

Lemma removing_an_image_witness :
  let v := Sample.drafting None in
  let t := mkTab Sample.logged_in v [] in
  NoDup (NewPost.id <$> NewPost.images v) ∧
  NewPost.revoked (page (NewPost.removeImage "id-1" t).2) = ["blob:1"] ∧
  NewPost.images (page (NewPost.removeImage "id-1" t).2) = [] ∧
  (NewPost.removeImage "other" t).2 = t.
Proof.
  intros v t.
  assert (NoDup (NewPost.id <$> NewPost.images v)) as Hnodup.
  { simpl. apply NoDup_singleton. }
  split; [exact Hnodup|]. split; [|split; [reflexivity|]].
  - exact (proj1 (proj2 (proj2 (proj2 (proj2 (proj2 (proj2 (proj2
             (removing_an_image "id-1" t))))))) 
             (NewPost.mkImage "id-1" Sample.photo "blob:1" "A cat")
             Hnodup ltac:(apply list_elem_of_singleton; reflexivity) eq_refl)).
  - apply (proj1 (proj2 (proj2 (proj2 (proj2 (proj2 (proj2
             (removing_an_image "other" t)))))))).
    repeat constructor. done.
Defined.

(** ** The new-post page: loading *)

(** X21. Loading the new-post page never changes the store, and its two
    guards come in this order.  Without a usable [selected_repo] the
    browser goes to the repositories page and the token is not even read.
    With one, the text is parsed first, and an exception of [JSON.parse]
    leaves the handler; then, without a usable token, the browser goes to
    the home page and no request is made.  With both, and a parsed value
    that is truthy, the date field is set to the first sixteen characters
    of the present time, exactly one request goes out, for [pure.yml] on
    the project's default branch ([main] if it has none), and the parsed
    file is kept only when the answer is ok and readable: after any
    failure the page goes on with no [pure.yml] at all. *)
Theorem new_post_guard (env : NewPost.Env) (s : gmap string string) :
  let run := NewPost.onMount env (fresh s NewPost.initial) in
  sessionStorage run.2 = s ∧
  (truthy (s !! k_selected_repo) = false →
     run = (Ret tt, mkTab s NewPost.initial
                          [EvGoto (NewPost.base env +:+ "/repos")])) ∧
  (∀ text, s !! k_selected_repo = Some text → text ≠ "" →
     match NewPost.JSON_parse env text with
     | Throw e => run = (Throw e, fresh s NewPost.initial)
     | Ret parsed =>
         (truthy (s !! k_access_token) = false →
            run = (Ret tt,
                   mkTab s (NewPost.set_accessToken (s !! k_access_token)
                              (NewPost.set_selectedRepo parsed NewPost.initial))
                         [EvGoto (NewPost.base env +:+ "/")])) ∧
         (∀ token r,
            s !! k_access_token = Some token → token ≠ "" →
            parsed = Some r → repo_truthy r = true →
            run.1 = Ret tt ∧
            log run.2 = [EvFetch (NewPost.pure_yml_url env r) token] ∧
            NewPost.postDatetime (page run.2)
            = String.substring 0 16 (NewPost.now env) ∧
            NewPost.pureYmlContent (page run.2)
            = match NewPost.fetch_pure_yml env (NewPost.pure_yml_url env r) token with
              | Ret response =>
                  if reply_ok response
                  then match reply_json response with
                       | Ret yml => yml
                       | Throw _ => None
                       end
                  else None
              | Throw _ => None
              end)
     end).
Proof.
  intros run. subst run. unfold_newpost. simpl. split_and!.
  - destruct (truthy (s !! k_selected_repo)); simpl; [|done].
    destruct (NewPost.JSON_parse env _) as [parsed|]; simpl; [|done].
    destruct (truthy (s !! k_access_token)) eqn:Htoken; simpl; [|done].
    rewrite ?Htoken. simpl.
    destruct (repo_present parsed); simpl; [|done].
    destruct parsed as [r|]; simpl; [|done].
    destruct (NewPost.fetch_pure_yml env _ _) as [response|]; simpl; [|done].
    destruct (reply_ok response); simpl; [|done].
    by destruct (reply_json response).
  - by intros ->.
  - intros text Hs Hne. rewrite Hs, truthy_Some by done. simpl.
    destruct (NewPost.JSON_parse env text) as [parsed|]; simpl; [|done].
    split.
    + by intros ->.
    + intros token r Htoken Htne -> Htruthy.
      rewrite Htoken, !truthy_Some by done. simpl. rewrite Htruthy. simpl.
      rewrite ?bool_decide_eq_true_2 by done. simpl.
      destruct (NewPost.fetch_pure_yml env _ token) as [response|]; simpl; [|done].
      destruct (reply_ok response); simpl; [|done].
      by destruct (reply_json response).
Qed.

Lemma new_post_guard_witness :
  let env := Sample.new_post (Throw Sample.network_down) (Ret Sample.created) in
  let s : gmap string string :=
    <[k_selected_repo := repo_stringify Sample.project]> Sample.logged_in in
  let run := NewPost.onMount env (fresh s NewPost.initial) in
  s !! k_access_token = Some "T" ∧
  NewPost.postDatetime (page run.2) = "2024-05-06T07:08" ∧
  NewPost.pureYmlContent (page run.2) = None.
Proof.
  intros env s run. split; [reflexivity|].
  destruct (proj2 (proj2 (proj2 (new_post_guard env s))
                     (repo_stringify Sample.project) eq_refl ltac:(done))
                  "T" Sample.project eq_refl ltac:(done) eq_refl eq_refl)
    as (_ & _ & Hdate & Hyml).
  exact (conj Hdate Hyml).
Defined.

(** ** The new-post page: the commit *)

Lemma since_log {P} (t t' : Tab P) (new : list Event) :
  log t' = log t ++ new → since t t' = new.
Proof. intros H. unfold since. rewrite H. apply drop_app_length. Qed.

Ltac done_leaf :=
  simpl; rewrite <- ?app_assoc; split_and!;
  first [ done
        | by left
        | right; by eexists
        | by eexists
        | exists []; by rewrite app_nil_r
        | eexists; split; [reflexivity|done] ].

(** The [try] block of [handleDone], run on the page [v] from any state of
    the tab. *)
Lemma handleDone_try_run
    (env : NewPost.Env) (v : NewPost.Vars) (t0 : Tab NewPost.Vars) :
  let run := NewPost.handleDone_try env v t0 in
  sessionStorage run.2 = sessionStorage t0 ∧
  same_draft (page t0) (page run.2) ∧
  NewPost.isSubmitting (page run.2) = NewPost.isSubmitting (page t0) ∧
  NewPost.errorMessage (page run.2) = NewPost.errorMessage (page t0) ∧
  (NewPost.commits (page run.2) = NewPost.commits (page t0) ∨
   ∃ request,
     NewPost.commits (page run.2) = NewPost.commits (page t0) ++ [request]) ∧
  match run.1 with
  | Ret _ =>
      (∃ id, NewPost.statusMessage (page run.2)
             = "Post created successfully! Commit: " +:+ id) ∧
      NewPost.revoked (page run.2)
      = NewPost.revoked (page t0) ++ (NewPost.preview <$> NewPost.images (page t0)) ∧
      ∃ new, log run.2 = log t0 ++ new ∧
             navigations new = [NewPost.base env +:+ "/dashboard"]
  | Throw _ =>
      NewPost.revoked (page run.2) = NewPost.revoked (page t0) ∧
      ∃ new, log run.2 = log t0 ++ new ∧ navigations new = []
  end.
Proof.
  intros run. subst run. unfold same_draft. unfold_newpost. simpl.
  destruct (NewPost.toISOString env (NewPost.postDatetime v)) as [iso|];
    simpl; [|done_leaf].
  destruct (NewPost.prepare _ (NewPost.images v)) as [[creates objs]|];
    simpl; [|done_leaf].
  destruct (NewPost.pureYmlContent v) as [[[|items|] others]|]; simpl.
  3: done_leaf.
  all: destruct (NewPost.YAML_stringify env _) as [text|]; simpl; [|done_leaf].
  all: destruct (NewPost.btoa env text) as [b64|]; simpl; [|done_leaf].
  all: destruct (NewPost.selectedRepo v) as [r|]; simpl; [|done_leaf].
  all: destruct (bool_decide (Exists _ _)); simpl; [done_leaf|].
  all: destruct (NewPost.post_commit env _) as [response|]; simpl; [|done_leaf].
  all: destruct (reply_json response) as [[|truthy id m e d p]|]; simpl;
    [..|done_leaf]; destruct (reply_ok response); simpl; done_leaf.
Qed.

(** X22. Pressing Done.  With no image the handler does nothing.  With
    images it never lets an exception out, never touches the store, sends
    at most one commit request, leaves the draft (images, title, date,
    project, token) as it was and always switches [isSubmitting] off
    again; and it ends in one of two ways.  Success: the status line names
    the commit, there is no error text, every preview URL is revoked and
    the move to the dashboard is scheduled.  Failure: the status line is
    empty, the error text starts with "Failed to create post:", nothing is
    revoked and the browser stays. *)
Theorem done_reports_and_resets (env : NewPost.Env) (t : Tab NewPost.Vars) :
  let run := NewPost.handleDone env t in
  let v := page t in
  let v' := page run.2 in
  (NewPost.images v = [] → run = (Ret tt, t)) ∧
  (NewPost.images v ≠ [] →
     run.1 = Ret tt ∧
     sessionStorage run.2 = sessionStorage t ∧
     same_draft v v' ∧
     NewPost.isSubmitting v' = false ∧
     (NewPost.commits v' = NewPost.commits v ∨
      ∃ request, NewPost.commits v' = NewPost.commits v ++ [request]) ∧
     ((∃ id, NewPost.statusMessage v'
             = "Post created successfully! Commit: " +:+ id) ∧
      NewPost.errorMessage v' = "" ∧
      NewPost.revoked v'
      = NewPost.revoked v ++ (NewPost.preview <$> NewPost.images v) ∧
      navigations (since t run.2) = [NewPost.base env +:+ "/dashboard"]
      ∨
      NewPost.statusMessage v' = "" ∧
      String.prefix "Failed to create post:" (NewPost.errorMessage v') = true ∧
      NewPost.revoked v' = NewPost.revoked v ∧
      navigations (since t run.2) = [])).
Proof.
  intros run v v'. subst run v v'. split.
  - intros Hnone. unfold NewPost.handleDone, NewPost.get_page, mbind, M_bind, bind.
    rewrite Hnone. by destruct t.
  - intros Hsome.
    pose proof (handleDone_try_run env (page t)
                  (mkTab (sessionStorage t)
                         (NewPost.set_isSubmitting true
                            (NewPost.set_errorMessage ""
                               (NewPost.set_statusMessage "" (page t))))
                         (log t))) as Htry.
    unfold NewPost.handleDone, NewPost.get_page, NewPost.handleDone_catch,
      mbind, mret, M_bind, M_ret, bind, ret, try_catch, modify_page.
    rewrite bool_decide_eq_false_2 by done. simpl in *.
    destruct (NewPost.handleDone_try env (page t) _) as [[[]|caught] t1]; simpl in *.
    + destruct Htry as (Hs & Hdraft & Hsub & Herr & Hcommits & Hstatus & Hrev
                        & new & Hlog & Hnav).
      split_and!; try done. left. split_and!; try done.
      by rewrite (since_log t _ new) by exact Hlog.
    + destruct Htry as (Hs & Hdraft & Hsub & Herr & Hcommits & Hrev
                        & new & Hlog & Hnav).
      split_and!; try done. right. split_and!; try done.
      * by destruct caught as [?|? [|[] ? ? ? ? ?]].
      * by rewrite (since_log t _ new) by exact Hlog.
Qed.

Lemma done_reports_and_resets_witness :
  let env := Sample.new_post (Throw Sample.network_down) (Ret Sample.rejected) in
  let t := mkTab Sample.logged_in (Sample.drafting None) [] in
  NewPost.images (page t) ≠ [] ∧
  NewPost.isSubmitting (page (NewPost.handleDone env t).2) = false ∧
  NewPost.statusMessage (page (NewPost.handleDone env t).2) = "".
Proof.
  intros env t.
  assert (NewPost.images (page t) ≠ []) as Hsome by done.
  split; [exact Hsome|].
  destruct (proj2 (done_reports_and_resets env t) Hsome)
    as (_ & _ & _ & Hflag & _ & [([id Hid] & _) | (Hstatus & _)]).
  - exfalso. vm_compute in Hid. discriminate Hid.
  - exact (conj Hflag Hstatus).
Defined.

Lemma prepare_actions (dateFolder : string) (imgs : list NewPost.ImageUpload)
    (creates : list NewPost.Action) (objs : list NewPost.ImageObj) :
  NewPost.prepare dateFolder imgs = Ret (creates, objs) →
  NewPost.file_path <$> creates
  = (λ img, dateFolder +:+ "/" +:+ NewPost.name (NewPost.file img)) <$> imgs ∧
  NewPost.path <$> objs
  = (λ img, dateFolder +:+ "/" +:+ NewPost.name (NewPost.file img)) <$> imgs ∧
  Forall (λ a, NewPost.action a = "create" ∧ NewPost.encoding a = "base64") creates ∧
  Forall2 (λ img a, NewPost.fileToBase64 (NewPost.file img) = Ret (NewPost.content a))
          imgs creates ∧
  Forall2 (λ img o, NewPost.image_caption o
                    = if truthy (Some (NewPost.caption img))
                      then Some (NewPost.caption img) else None)
          imgs objs.
Proof.
  revert creates objs.
  induction imgs as [|img imgs IH]; intros creates objs; simpl.
  - intros [= <- <-]. split_and!; by constructor.
  - destruct (NewPost.fileToBase64 (NewPost.file img)) as [base64|] eqn:Hread; [|done].
    destruct (NewPost.prepare dateFolder imgs) as [[creates' objs']|]; [|done].
    intros [= <- <-].
    destruct (IH creates' objs' eq_refl) as (Hpaths & Hobjs & Hall & Hcontent & Hcaptions).
    split_and!.
    + rewrite !fmap_cons. by rewrite Hpaths.
    + rewrite !fmap_cons. by rewrite Hobjs.
    + by constructor.
    + by constructor.
    + by constructor.
Qed.

Section Commit.

Variable env : NewPost.Env.
Variable t : Tab NewPost.Vars.
Variable isoTimestamp : string.
Variable creates : list NewPost.Action.
Variable objs : list NewPost.ImageObj.

Let v := page t.
Let run := NewPost.handleDone env t.

(** There are images, the date is valid and every file could be read. *)
Hypothesis Himages : NewPost.images v ≠ [].
Hypothesis Hdate : NewPost.toISOString env (NewPost.postDatetime v) = Ret isoTimestamp.
Hypothesis Hprepare :
  NewPost.prepare (date_folder isoTimestamp) (NewPost.images v) = Ret (creates, objs).

(** X23. The [posts] array of the parsed [pure.yml] is shared with the
    copy the handler prepares.  From the moment the handler has read the
    files, the page's own [pure.yml] has the new post in front, whatever
    becomes of the commit afterwards; so pressing Done again after a
    failure puts the post into the file twice. *)
Theorem posts_array_is_shared
    (items : list NewPost.Post) (others : list (string * string)) :
  NewPost.pureYmlContent v
  = Some (NewPost.mkYml (NewPost.PostsArray items) others) →
  let newPost := NewPost.Added isoTimestamp (NewPost.postTitle v) objs in
  NewPost.pureYmlContent (page run.2)
  = Some (NewPost.mkYml (NewPost.PostsArray (newPost :: items)) others) ∧
  NewPost.pureYmlContent (page (NewPost.handleDone env run.2).2)
  = Some (NewPost.mkYml (NewPost.PostsArray (newPost :: newPost :: items)) others).
Proof.
  intros Hyml newPost.
  assert (∀ t' : Tab NewPost.Vars,
            same_draft v (page t') → ∀ items',
            NewPost.pureYmlContent (page t')
            = Some (NewPost.mkYml (NewPost.PostsArray items') others) →
            NewPost.pureYmlContent (page (NewPost.handleDone env t').2)
            = Some (NewPost.mkYml (NewPost.PostsArray (newPost :: items')) others) ∧
            same_draft v (page (NewPost.handleDone env t').2)) as Hstep.
  { intros t' (Hrepo & Himgs & Hdt & Htitle & Htoken) items' Hyml'.
    pose proof (handleDone_try_run env (page t')
                  (mkTab (sessionStorage t')
                         (NewPost.set_isSubmitting true
                            (NewPost.set_errorMessage ""
                               (NewPost.set_statusMessage "" (page t'))))
                         (log t'))) as (_ & Hdraft & _).
    unfold same_draft in *. simpl in Hdraft.
    split.
    - clear Hdraft. unfold_newpost. unfold date_folder, newPost in *.
      rewrite Himgs, bool_decide_eq_false_2 by done. simpl.
      rewrite Hdt, Hdate. simpl. rewrite Hprepare. simpl.
      rewrite Hyml', Htitle. simpl.
      destruct (NewPost.YAML_stringify env _) as [text|]; simpl; [|done].
      destruct (NewPost.btoa env text) as [b64|]; simpl; [|done].
      destruct (NewPost.selectedRepo (page t')) as [r|]; simpl; [|done].
      destruct (bool_decide (Exists _ _)); simpl; [done|].
      destruct (NewPost.post_commit env _) as [response|]; simpl; [|done].
      destruct (reply_json response) as [[|truthy id m e d p]|]; simpl;
        [..|done]; by destruct (reply_ok response).
    - unfold NewPost.handleDone, NewPost.get_page, NewPost.handleDone_catch,
        mbind, mret, M_bind, M_ret, bind, ret, try_catch, modify_page.
      rewrite Himgs, bool_decide_eq_false_2 by done. simpl.
      destruct (NewPost.handleDone_try env (page t') _) as [[[]|caught] t1];
        simpl in *; destruct Hdraft as (-> & -> & -> & -> & ->); done. }
  destruct (Hstep t ltac:(by unfold same_draft) items Hyml) as [Hfirst Hdraft].
  split; [exact Hfirst|].
  exact (proj1 (Hstep run.2 Hdraft (newPost :: items) Hfirst)).
Qed.

End Commit.

Lemma posts_array_is_shared_witness :
  let env := Sample.new_post (Throw Sample.network_down) (Ret Sample.rejected) in
  let t := mkTab Sample.logged_in (Sample.drafting (Some Sample.earlier_posts)) [] in
  let newPost := NewPost.Added "2024-05-06T07:08:00.000Z" "Cats"
                   [NewPost.mkImageObj "2024-05-06/cat.png" (Some "A cat")] in
  NewPost.images (page t) ≠ [] ∧
  NewPost.pureYmlContent (page (NewPost.handleDone env (NewPost.handleDone env t).2).2)
  = Some (NewPost.mkYml
            (NewPost.PostsArray [newPost; newPost; NewPost.Existing "first post"])
            [("title", "My site")]).
Proof.
  intros env t newPost.
  assert (NewPost.images (page t) ≠ []) as Hsome by done.
  split; [exact Hsome|].
  exact (proj2 (posts_array_is_shared env t "2024-05-06T07:08:00.000Z"
                  [NewPost.mkAction "create" "2024-05-06/cat.png" (Some "AAAA") "base64"]
                  [NewPost.mkImageObj "2024-05-06/cat.png" (Some "A cat")]
                  Hsome eq_refl eq_refl
                  [NewPost.Existing "first post"] [("title", "My site")] eq_refl)).
Defined.

Section CommitRequest.

Variable env : NewPost.Env.
Variable t : Tab NewPost.Vars.
Variables isoTimestamp text b64 : string.
Variable creates : list NewPost.Action.
Variable objs : list NewPost.ImageObj.
Variable r : RepoJson.

Let v := page t.
Let run := NewPost.handleDone env t.

(** The document the handler makes of [pure.yml]: the new post in front of
    the posts the page knows, with the other keys of the parsed file. *)
Let updatedYml : NewPost.Yml :=
  NewPost.mkYml
    (NewPost.PostsArray
       (NewPost.Added isoTimestamp (NewPost.postTitle v) objs
        :: known_posts (NewPost.pureYmlContent v)))
    (known_others (NewPost.pureYmlContent v)).

Hypothesis Himages : NewPost.images v ≠ [].
Hypothesis Hdate : NewPost.toISOString env (NewPost.postDatetime v) = Ret isoTimestamp.
Hypothesis Hprepare :
  NewPost.prepare (date_folder isoTimestamp) (NewPost.images v) = Ret (creates, objs).
Hypothesis Hposts :
  ∀ others, NewPost.pureYmlContent v ≠ Some (NewPost.mkYml NewPost.PostsOther others).
Hypothesis Hyaml : NewPost.YAML_stringify env updatedYml = Ret text.
Hypothesis Hbtoa : NewPost.btoa env text = Ret b64.
Hypothesis Hrepo : NewPost.selectedRepo v = Some r.
Hypothesis Hcontents : Forall (λ a, NewPost.content a ≠ None) creates.

Let request : NewPost.CommitRequest :=
  NewPost.mkCommit
    (NewPost.GITLAB_URL env +:+ "/api/v4/projects/" +:+ repo_id r
     +:+ "/repository/commits")
    ("Bearer " +:+ default "null" (NewPost.accessToken v))
    (default "main" (repo_default_branch r))
    ("Add post for " +:+ date_folder isoTimestamp)
    (creates ++ [NewPost.mkAction "update" "pure.yml" (Some b64) "base64"]).

Lemma handleDone_sends :
  NewPost.commits (page run.2) = NewPost.commits v ++ [request] ∧
  fetches (since t run.2)
  = [(NewPost.url request, default "null" (NewPost.accessToken v))].
Proof.
  assert (bool_decide
            (Exists (λ a, NewPost.content a = None)
               (creates ++ [NewPost.mkAction "update" "pure.yml" (Some b64) "base64"]))
          = false) as Hdefined.
  { apply bool_decide_eq_false. rewrite Exists_app, Exists_cons, Exists_nil.
    intros [Hex | [? | []]]; [|done].
    apply Exists_exists in Hex as (a & Ha & Hnone).
    by apply (proj1 (Forall_forall _ _) Hcontents a Ha). }
  subst run request updatedYml v. unfold_newpost. unfold date_folder in *.
  rewrite bool_decide_eq_false_2 by done. simpl.
  rewrite Hdate. simpl. rewrite Hprepare. simpl.
  destruct (NewPost.pureYmlContent (page t)) as [[[|items|] others]|] eqn:Hyml;
    simpl in *; [| |by destruct (Hposts others)|].
  all: rewrite Hyaml; simpl; rewrite Hbtoa; simpl; rewrite Hrepo; simpl.
  all: rewrite Hdefined; simpl.
  all: destruct (NewPost.post_commit env _) as [response|]; simpl;
    [|by rewrite since_app].
  all: destruct (reply_json response) as [[|truthy id m e d p]|]; simpl;
    [..|by rewrite since_app]; destruct (reply_ok response); simpl;
    rewrite <- ?app_assoc; by rewrite since_app.
Qed.

(** X24. The commit.  When there are images, the date is valid, every file
    could be read into a data URL with a comma, [pure.yml] could be
    written out and a project is selected, the handler sends exactly one
    request: to the commits of that project, on its default branch ([main]
    if it has none), with the message "Add post for" and the date, and
    with one [create] action per image, in the order of the list, at the
    path made of the date and the file's name, followed by one [update] of
    [pure.yml] whose content is the encoded document: the new post in front
    of the posts of the file as the page has it.  Two images whose files
    have the same name get the same path. *)
Theorem commit_request :
  NewPost.commits (page run.2) = NewPost.commits v ++ [request] ∧
  fetches (since t run.2)
  = [(NewPost.url request, default "null" (NewPost.accessToken v))] ∧
  NewPost.file_path <$> NewPost.actions request
  = ((λ img, date_folder isoTimestamp +:+ "/" +:+ NewPost.name (NewPost.file img))
       <$> NewPost.images v) ++ ["pure.yml"] ∧
  NewPost.action <$> NewPost.actions request
  = replicate (length (NewPost.images v)) "create" ++ ["update"] ∧
  last (NewPost.actions request)
  = Some (NewPost.mkAction "update" "pure.yml" (Some b64) "base64").
Proof.
  destruct (prepare_actions _ _ _ _ Hprepare) as (Hpaths & _ & Hcreate & Hread & _).
  destruct handleDone_sends as [Hsent Hfetch].
  split_and!; [done|done|..].
  - simpl. rewrite fmap_app. by rewrite Hpaths.
  - simpl. rewrite fmap_app. f_equal.
    apply Forall2_length in Hread. rewrite Hread.
    clear -Hcreate. induction Hcreate as [|a l [Ha _] _ IH]; [done|].
    rewrite fmap_cons, Ha, IH. done.
  - apply last_snoc.
Qed.

End CommitRequest.

Lemma commit_request_witness :
  let env := Sample.new_post (Throw Sample.network_down) (Ret Sample.created) in
  let t := mkTab Sample.logged_in (Sample.drafting (Some Sample.earlier_posts)) [] in
  NewPost.selectedRepo (page t) = Some Sample.project ∧
  NewPost.commits (page (NewPost.handleDone env t).2)
  = [NewPost.mkCommit "https://gitlab.com/api/v4/projects/42/repository/commits"
       "Bearer T" "trunk" "Add post for 2024-05-06"
       [NewPost.mkAction "create" "2024-05-06/cat.png" (Some "AAAA") "base64";
        NewPost.mkAction "update" "pure.yml" (Some "b64(posts: several)") "base64"]].
Proof.
  intros env t. split; [reflexivity|].
  exact (proj1 (commit_request env t "2024-05-06T07:08:00.000Z"
                  "posts: several" "b64(posts: several)"
                  [NewPost.mkAction "create" "2024-05-06/cat.png" (Some "AAAA") "base64"]
                  [NewPost.mkImageObj "2024-05-06/cat.png" (Some "A cat")]
                  Sample.project
                  ltac:(done) eq_refl eq_refl ltac:(done) eq_refl eq_refl eq_refl
                  ltac:(repeat constructor; done))).
Defined.



(** ** The pages after a logout *)

Lemma repos_redirects (env : Repos.Env) (s : gmap string string) :
  s !! k_access_token = None →
  log (Repos.onMount env (fresh s Repos.initial)).2
  = [EvGoto (Repos.base env +:+ "/")].
Proof. intros Hs. unfold_repos. simpl. by rewrite Hs. Qed.

Lemma home_shows_login (env : Home.Env) (s : gmap string string) :
  s !! k_access_token = None →
  Home.onMount env (fresh s Home.initial)
  = (Ret tt, mkTab s (Home.mkVars false None false) []).
Proof. intros Hs. unfold_home. simpl. by rewrite Hs. Qed.

Lemma dashboard_redirects (env : Dashboard.Env) (s : gmap string string) :
  s !! k_selected_repo = None →
  log (Dashboard.onMount env (fresh s Dashboard.initial)).2
  = [EvGoto (Dashboard.base env +:+ "/repos")].
Proof. intros Hs. unfold_dashboard. simpl. by rewrite Hs. Qed.

Lemma new_post_redirects (env : NewPost.Env) (s : gmap string string) :
  s !! k_selected_repo = None →
  log (NewPost.onMount env (fresh s NewPost.initial)).2
  = [EvGoto (NewPost.base env +:+ "/repos")].
Proof. intros Hs. unfold_newpost. simpl. by rewrite Hs. Qed.

(** X26. What the pages do on the store a logout leaves.  After the logout
    of the repositories, dashboard or callback page every page turns the
    visitor away: the repositories page sends them home, the dashboard and
    the new-post page send them to the repositories page, and the home
    page offers the login without asking the provider anything.  After
    the logout of the home page, which keeps [selected_repo], the
    dashboard still opens on the project chosen before, with no credential
    in the store, while the new-post page sends the visitor home without a
    request. *)
Theorem pages_after_logout :
  (∀ (P : Type) (base : string) (t : Tab P),
     Forall (λ logout : M P JsExn unit,
               let s' := sessionStorage (logout t).2 in
               (∀ env, log (Repos.onMount env (fresh s' Repos.initial)).2
                       = [EvGoto (Repos.base env +:+ "/")]) ∧
               (∀ env, log (Dashboard.onMount env (fresh s' Dashboard.initial)).2
                       = [EvGoto (Dashboard.base env +:+ "/repos")]) ∧
               (∀ env, log (NewPost.onMount env (fresh s' NewPost.initial)).2
                       = [EvGoto (NewPost.base env +:+ "/repos")]) ∧
               (∀ env, Home.onMount env (fresh s' Home.initial)
                       = (Ret tt, mkTab s' (Home.mkVars false None false) [])))
            [Repos.logout base; Dashboard.logout base; Callback.logout base]) ∧
  (∀ t : Tab Home.Vars,
     let s' := sessionStorage (Home.logout t).2 in
     (∀ env, log (Repos.onMount env (fresh s' Repos.initial)).2
             = [EvGoto (Repos.base env +:+ "/")]) ∧
     (∀ env, Home.onMount env (fresh s' Home.initial)
             = (Ret tt, mkTab s' (Home.mkVars false None false) [])) ∧
     (∀ text, sessionStorage t !! k_selected_repo = Some text → text ≠ "" →
        read s' = None ∧
        (∀ env parsed, Dashboard.JSON_parse env text = Ret parsed →
           Dashboard.onMount env (fresh s' Dashboard.initial)
           = (Ret tt, mkTab s' (Dashboard.mkVars parsed false) [])) ∧
        (∀ env parsed, NewPost.JSON_parse env text = Ret parsed →
           log (NewPost.onMount env (fresh s' NewPost.initial)).2
           = [EvGoto (NewPost.base env +:+ "/")]))).
Proof.
  split.
  - intros P base t.
    assert (∀ s' : gmap string string,
              s' !! k_access_token = None → s' !! k_selected_repo = None →
              (∀ env, log (Repos.onMount env (fresh s' Repos.initial)).2
                      = [EvGoto (Repos.base env +:+ "/")]) ∧
              (∀ env, log (Dashboard.onMount env (fresh s' Dashboard.initial)).2
                      = [EvGoto (Dashboard.base env +:+ "/repos")]) ∧
              (∀ env, log (NewPost.onMount env (fresh s' NewPost.initial)).2
                      = [EvGoto (NewPost.base env +:+ "/repos")]) ∧
              (∀ env, Home.onMount env (fresh s' Home.initial)
                      = (Ret tt, mkTab s' (Home.mkVars false None false) [])))
      as Hall.
    { intros s' Htoken Hrepo. split_and!; intros env.
      - by apply repos_redirects.
      - by apply dashboard_redirects.
      - by apply new_post_redirects.
      - by apply home_shows_login. }
    repeat constructor; apply Hall; simpl; keys; by simplify_map_eq.
  - intros t s'. subst s'. rewrite (proj2 (home_logout_run t)).
    assert (∀ m : gmap string string,
              delete k_code_verifier (delete k_oauth_state
                (delete k_refresh_token (delete k_access_token m)))
              !! k_access_token = None) as Htoken.
    { intros m. keys. by simplify_map_eq. }
    assert (∀ m : gmap string string,
              delete k_code_verifier (delete k_oauth_state
                (delete k_refresh_token (delete k_access_token m)))
              !! k_selected_repo = m !! k_selected_repo) as Hrepo.
    { intros m. keys. by simplify_map_eq. }
    split_and!.
    + intros env. by apply repos_redirects.
    + intros env. by apply home_shows_login.
    + intros text Hs Hne. split_and!.
      * apply Htoken.
      * intros env parsed Hparse. unfold_dashboard. simpl.
        rewrite Hrepo, Hs, truthy_Some by done. simpl. by rewrite Hparse.
      * intros env parsed Hparse. unfold_newpost. simpl.
        rewrite Hrepo, Hs, truthy_Some by done. simpl. rewrite Hparse. simpl.
        by rewrite Htoken.
Qed.

Lemma pages_after_logout_witness :
  let s' := sessionStorage (Home.logout (fresh Sample.browsing Home.initial)).2 in
  Sample.browsing !! k_selected_repo = Some (repo_stringify Sample.project) ∧
  read s' = None ∧
  Dashboard.onMount Sample.dashboard (fresh s' Dashboard.initial)
  = (Ret tt, mkTab s' (Dashboard.mkVars (Some Sample.project) false) []).
Proof.
  intros s'.
  assert (Sample.browsing !! k_selected_repo = Some (repo_stringify Sample.project))
    as Hsel by reflexivity.
  split; [exact Hsel|].
  destruct (proj2 (proj2 (proj2 pages_after_logout
                     (fresh Sample.browsing Home.initial)))
              (repo_stringify Sample.project) Hsel ltac:(done))
    as (Hread & Hdash & _).
  split; [exact Hread|].
  exact (Hdash Sample.dashboard (Some Sample.project) eq_refl).
Defined.

Lemma startup_frame_witness :
  let run := Home.onMount (Sample.home (Ret Sample.alice))
               (fresh Sample.pending Home.initial) in
  truthy (Sample.pending !! k_access_token) = false ∧
  run.2 = mkTab Sample.pending (Home.mkVars false None false) [].
Proof.
  intros run. split; [reflexivity|].
  exact (proj2 (proj2 (proj2 (proj2 (proj2 (proj2 (proj2
           (startup_frame (Sample.home (Ret Sample.alice)) Sample.pending)))))))
           eq_refl).
Defined.

